(** * HackRF R/C controller: the command encoder, the up-converter, the
      transmit scheduler and the stream writer of [rc_controller_soapy.py]

    The development embeds the two classes of the script that carry
    behaviour:

    - [RCControllerSignalGenerator], whose [generate_signal] is the
      on/off-keyed command encoder;
    - [RCController]: [_modulate_signal], the shift onto the sub-carrier;
      the press and release handlers; the write loop [_transmit_command].

    Of the window ([RCControllerView], a [tk.Tk]) it keeps what the
    controller uses: the timer jobs of [after] and [after_cancel], and the
    labels the buttons pass to the handlers.  The radio is a parameter.

    Numbers.  A finite Python float is given by its exact value, a
    rational ([Q]).  The one float operation of the encoder, the product
    that decides the samples per bit period, is rounded to the nearest
    double as IEEE 754 prescribes ([Py.float_mul]) and then truncated; the
    same computation is repeated on machine doubles ([Binary64]) and
    compared.  The modulator, which takes sines and cosines, is read over
    the reals ([R]), with the cast [astype(complex64)] as the identity:
    what is proved of its sample values holds of the code up to rounding,
    what is proved of lengths and of zero samples holds as it stands.
    Python integers are [Z]. *)

From Stdlib Require Import ZArith QArith Qround Qabs Qpower Reals Lia Lra.
From Stdlib Require Import String Ascii List.
From Stdlib Require Floats.
From stdpp Require Import gmap strings list fin_maps.
Import ListNotations.

#[local] Open Scope Z_scope.

(** ** Python built-ins used by the script *)

Module Py.

(** [n * l] and [l * n] on a list: [l] repeated [n] times, the empty list
    when [n] is zero or negative. *)
Definition list_mul {A : Type} (n : Z) (l : list A) : list A :=
  concat (replicate (Z.to_nat n) l).

(** [int(x)] on a float: truncation toward zero. *)
Definition int (x : Q) : Z := Z.quot (Qnum x) (Z.pos (Qden x)).

(** [round(x)] on a float: the nearest integer, ties to the even one. *)
Definition round (x : Q) : Z :=
  let f := Qfloor x in
  match (x - inject_Z f ?= 1 # 2)%Q with
  | Lt => f
  | Gt => f + 1
  | Eq => if Z.even f then f else f + 1
  end.

(** [float(x)]: the double nearest to [x], a tie going to the even
    significand, given by its exact value.  [ilog2 x] is the exponent of
    the leading bit of [x]; a double keeps 53 bits from there down, and
    none below [2^-1074].  For magnitudes below [2^1024], where Python has
    a float and not [inf]; a double is its own nearest double. *)
Definition ilog2 (x : Q) : Z :=
  let e := Z.log2 (Z.abs (Qnum x)) - Z.log2 (Z.pos (Qden x)) in
  if Qle_bool (2 ^ e) (Qabs x) then e else e - 1.

Definition float (x : Q) : Q :=
  if Qeq_bool x 0 then 0%Q
  else
    let e := Z.max (ilog2 x - 52) (-1074) in
    (inject_Z (round (x / 2 ^ e)) * 2 ^ e)%Q.

(** [x * y] where a float is involved: each operand is taken as the double
    it denotes, and their exact product is rounded to a double. *)
Definition float_mul (x y : Q) : Q := float (float x * float y).

(** [sub in s] on strings: [sub] occurs in [s] as a substring. *)
Fixpoint str_in (sub s : string) : bool :=
  String.prefix sub s ||
  match s with
  | EmptyString => false
  | String _ s' => str_in sub s'
  end.

(** [l[n:]] for a positive [n]: the list without its first [n] items,
    empty when [n] reaches past the end. *)
Definition slice_from {A : Type} (n : Z) (l : list A) : list A :=
  drop (Z.to_nat n) l.

(** [len(l)]. *)
Definition len {A : Type} (l : list A) : Z := Z.of_nat (length l).

(** How a call ends: it returns a value, raises, or is still running when
    the fuel given to its loops is spent. *)
Inductive exn : Set := AssertionError | TypeError | AttributeError.

Inductive outcome (A : Type) : Type :=
| Return (a : A)
| Raise (e : exn)
| Running.
Arguments Return {A} a.
Arguments Raise {A} e.
Arguments Running {A}.

(** A method that reads and writes an object of type [S]: it ends in an
    outcome and leaves the object in a state.  What was written before an
    exception stays written. *)
Definition method (S A : Type) : Type := S -> outcome A * S.

Definition ret {S A : Type} (a : A) : method S A := fun s => (Return a, s).

Definition raise {S A : Type} (e : exn) : method S A := fun s => (Raise e, s).

Definition bind {S A B : Type} (m : method S A) (k : A -> method S B) : method S B :=
  fun s =>
    match m s with
    | (Return a, s') => k a s'
    | (Raise e, s') => (Raise e, s')
    | (Running, s') => (Running, s')
    end.

Definition get {S : Type} : method S S := fun s => (Return s, s).

Definition modify {S : Type} (f : S -> S) : method S unit := fun s => (Return tt, f s).

End Py.

Notation "'let*' x := m 'in' k" := (Py.bind m (fun x => k))
  (at level 10, x name, m at level 100, k at level 200).
Notation "m ;;; k" := (Py.bind m (fun _ => k))
  (at level 100, k at level 200, right associativity).

(** ** The command encoder: [RCControllerSignalGenerator] *)

(** The one attribute of an instance: the rate it was built with, a
    finite number. *)
Record RCControllerSignalGenerator : Set := { _sample_rate : Q }.

Module RCControllerSignalGenerator.

(** [__init__(self, sample_rate)]. *)
Definition __init__ (sample_rate : Q) : RCControllerSignalGenerator :=
  {| _sample_rate := sample_rate |}.

(** Class attribute: 0.5 ms period of the on/off-keying clock, as the
    literal is written; [Py.float_mul] takes the double it denotes. *)
Definition _clock_period : Q := 0.0005.

Section locals.
Variable self : RCControllerSignalGenerator.

(** The locals of [generate_signal], in the order the method binds them. *)
Definition low : list Q :=
  Py.list_mul (Py.int (Py.float_mul (_sample_rate self) _clock_period)) [0%Q].
Definition high : list Q :=
  Py.list_mul (Py.int (Py.float_mul (_sample_rate self) _clock_period)) [0.95%Q].

Definition long : list Q := Py.list_mul 3 high ++ low.
Definition short : list Q := high ++ low.
Definition cmd_forward : list Q := Py.list_mul 4 long ++ Py.list_mul 40 short.
Definition cmd_forward_right : list Q := Py.list_mul 4 long ++ Py.list_mul 46 short.
Definition cmd_forward_left : list Q := Py.list_mul 4 long ++ Py.list_mul 52 short.
Definition cmd_reverse : list Q := Py.list_mul 4 long ++ Py.list_mul 10 short.
Definition cmd_reverse_right : list Q := Py.list_mul 4 long ++ Py.list_mul 34 short.
Definition cmd_reverse_left : list Q := Py.list_mul 4 long ++ Py.list_mul 28 short.
Definition cmd_left : list Q := Py.list_mul 4 long ++ Py.list_mul 58 short.
Definition cmd_right : list Q := Py.list_mul 4 long ++ Py.list_mul 64 short.

Definition cmd_stop : list Q :=
  Py.list_mul 15 (Py.list_mul 4 long ++ Py.list_mul 4 short).
Definition cmd_off : list Q := Py.list_mul 10 low.

(** [generate_signal(self, command)].  The assertion on the argument's
    type holds by typing.  [None] is Python's [None]: the value of a
    call that runs off the end of the method. *)
Definition generate_signal (command : string) : option (list Q) :=
  if Py.str_in "n" command || Py.str_in "N" command then
    if Py.str_in "e" command || Py.str_in "E" command then
      Some cmd_forward_right
    else if Py.str_in "w" command || Py.str_in "W" command then
      Some cmd_forward_left
    else Some cmd_forward
  else if Py.str_in "s" command || Py.str_in "S" command then
    if Py.str_in "e" command || Py.str_in "E" command then
      Some cmd_reverse_right
    else if Py.str_in "w" command || Py.str_in "W" command then
      Some cmd_reverse_left
    else Some cmd_reverse
  else if Py.str_in "e" command || Py.str_in "E" command then
    Some cmd_right
  else if Py.str_in "w" command || Py.str_in "W" command then
    Some cmd_left
  else if Py.str_in "x" command || Py.str_in "X" command then
    Some cmd_stop
  else if Py.str_in "o" command || Py.str_in "O" command then
    Some cmd_off
  else None.

(** The number of samples in one bit period: the length of [low]. *)
Definition samples_per_bit : nat := length low.

End locals.

End RCControllerSignalGenerator.

(** ** The encoder's one float computation, on machine doubles

    [int(self._sample_rate * self._clock_period)] as CPython evaluates it,
    on the primitive IEEE doubles, to set beside [Py.float_mul] and
    [Py.int] above. *)

Module Binary64.
Import PrimFloat.

(** [int(x)] on a double: the value [(-1)^s * m * 2^e] truncated toward
    zero.  [None] stands for the error Python raises on an infinity or a
    NaN. *)
Definition int (x : float) : option Z :=
  match FloatOps.Prim2SF x with
  | SpecFloat.S754_zero _ => Some 0
  | SpecFloat.S754_finite s m e =>
      let a := if 0 <=? e then Z.shiftl (Z.pos m) e else Z.shiftr (Z.pos m) (- e) in
      Some (if s then - a else a)
  | _ => None
  end.

(** The exact value of a finite double. *)
Definition value (x : float) : option Q :=
  match FloatOps.Prim2SF x with
  | SpecFloat.S754_zero _ => Some 0%Q
  | SpecFloat.S754_finite s m e =>
      Some ((if s then -1 else 1) * inject_Z (Z.pos m) * 2 ^ e)%Q
  | _ => None
  end.

(** The literal [0.0005] is the double nearest to it. *)
Definition _clock_period : float := 0x1.0624dd2f1a9fcp-11.

Definition _sample_rate : float := 8e6.

(** A rate at which the product has a fractional part: 1.8. *)
Definition slow_sample_rate : float := 3600.

(** A rate at which the rounding of the product decides the count: the
    double that prints as [129999.99999999999]. *)
Definition edge_sample_rate : float := 0x1.fbcffffffffffp+16.

(** Two more rates to compare at: one whose product is rounded, one whose
    product is subnormal. *)
Definition audio_sample_rate : float := 44100.
Definition tiny_sample_rate : float := 0x1.8p-1060.

Definition samples_per_bit (sample_rate : float) : option nat :=
  Z.to_nat <$> int (sample_rate * _clock_period).

(** At the whole rate [k], the count on machine doubles is the encoder's. *)
Definition same_count_at (k : Z) : bool :=
  match samples_per_bit (of_uint63 (Uint63.of_Z k)) with
  | Some n =>
      Nat.eqb n
        (RCControllerSignalGenerator.samples_per_bit
           (RCControllerSignalGenerator.__init__ (inject_Z k)))
  | None => false
  end.

End Binary64.

(** The eight directions of the control surface.  [button_label] is the
    text each button of [RCControllerView._build_gui] hands to the press
    handler, [key_direction] the value [_key_map] holds for its key, and
    [short_pulses] the number of short bits the protocol gives the
    direction's frame. *)
Inductive direction : Set :=
| North | South | East | West | NorthEast | NorthWest | SouthEast | SouthWest.

Definition button_label (d : direction) : string :=
  match d with
  | North => "N" | South => "S" | East => "E" | West => "W"
  | NorthEast => "NE" | NorthWest => "NW" | SouthEast => "SE" | SouthWest => "SW"
  end.

Definition key_direction (d : direction) : string :=
  match d with
  | North => "n" | South => "s" | East => "e" | West => "w"
  | NorthEast => "ne" | NorthWest => "nw" | SouthEast => "se" | SouthWest => "sw"
  end.

Definition short_pulses (d : direction) : Z :=
  match d with
  | North => 40 | NorthEast => 46 | NorthWest => 52
  | South => 10 | SouthEast => 34 | SouthWest => 28
  | West => 58 | East => 64
  end.

(** The letters [generate_signal] looks for. *)
Definition recognized_letters : list ascii :=
  ["n"; "N"; "s"; "S"; "e"; "E"; "w"; "W"; "x"; "X"; "o"; "O"]%char.

(** ** Complex samples *)

Module Complex.

#[local] Open Scope R_scope.

(** A complex number: real and imaginary part. *)
Definition C : Type := R * R.

Definition of_real (x : R) : C := (x, 0).
(** Python's [1j]. *)
Definition j : C := (0, 1).
Definition mul (a b : C) : C :=
  (a.1 * b.1 - a.2 * b.2, a.1 * b.2 + a.2 * b.1).
(** [np.exp] on a complex number. *)
Definition exp (z : C) : C := (Rtrigo_def.exp z.1 * cos z.2, Rtrigo_def.exp z.1 * sin z.2).
(** [abs] of a complex number: its magnitude. *)
Definition abs (z : C) : R := sqrt (z.1 * z.1 + z.2 * z.2).

End Complex.

Abbreviation C := Complex.C.

(** ** The collaborators: the radio and the Tk event loop *)

(** [SoapySDR.Device.writeStream(stream, [buffer], size)] as the script uses
    it: the radio is offered [buffer] and a number of samples, answers with
    [sr.ret] and moves to its next state.  The answer is the radio's own:
    nothing is assumed of it here. *)
Class SoapySDR (Radio : Type) : Type :=
  { writeStream : Radio -> list C -> Z -> Z * Radio }.

(** One call of [writeStream], as the radio saw it. *)
Record write_call : Type :=
  { call_buffer : list C; call_size : Z; call_ret : Z }.

(** The samples a call took from the front of the buffer it was offered. *)
Definition accepted (c : write_call) : list C :=
  take (Z.to_nat (call_ret c)) (call_buffer c).

Module Tk.

(** The only function the script ever hands to [after]. *)
Inductive callback : Set := _transmit_current_command_cb.

(** The timer side of the Tk root window: the jobs that [after] has
    installed and that have neither fired nor been cancelled, each with
    its delay in milliseconds, and the counter behind the identifiers
    [after#0], [after#1], ... *)
Record t : Type :=
  { pending : gmap nat (Z * callback); next_id : nat }.

Definition create : t := {| pending := ∅; next_id := 0 |}.

(** [after(ms, func)]: installs the job and returns its identifier. *)
Definition after (ms : Z) (func : callback) (tk : t) : nat * t :=
  (next_id tk,
   {| pending := <[next_id tk := (ms, func)]> (pending tk);
      next_id := S (next_id tk) |}).

(** [after_cancel(id)]: drops the job; no effect when it is not pending. *)
Definition after_cancel (id : nat) (tk : t) : t :=
  {| pending := delete id (pending tk); next_id := next_id tk |}.

End Tk.

(** ** The controller: [RCController] *)

(** The attributes of an [RCController] instance that the handlers read or
    write.  [_current_command] and [_job] are unset until [start] assigns
    them.  [written] is not an attribute: it is the history of the calls of
    [writeStream], kept to state what went on air.  The stream handle and
    the radio's gain and frequency settings play no part in the handlers
    and are left out. *)
Record RCController (Radio : Type) : Type :=
  { view : Tk.t;
    generator : RCControllerSignalGenerator;
    radio : Radio;
    _stop_command : list C;
    _current_command : option (list C);
    _job : option nat;
    written : list write_call }.
Arguments view {Radio} _.
Arguments generator {Radio} _.
Arguments radio {Radio} _.
Arguments _stop_command {Radio} _.
Arguments _current_command {Radio} _.
Arguments _job {Radio} _.
Arguments written {Radio} _.

Module RCController.

(** Class attributes. *)
Definition _radio_center_frequency : Q := 25e6.
Definition _rc_control_frequency : Q := 27e6.
Definition _sample_rate : Q := 8e6.
Definition _after_delay_ms : Z := 15.

Definition _key_map : gmap string string :=
  list_to_map
    [("w", "n"); ("x", "s"); ("d", "e"); ("a", "w");
     ("q", "nw"); ("e", "ne"); ("z", "sw"); ("c", "se")].

(** [np.array(l)] on a list of numbers. *)
Definition np_array (l : list Q) : list R := Q2R <$> l.

(** [_modulate_signal(self, signal)]. *)
Definition _modulate_signal (signal : list R) : list C :=
  let frequency_offset := (Q2R _rc_control_frequency - Q2R _radio_center_frequency)%R in
  let t := (fun k : nat => (INR k * 1 / Q2R _sample_rate)%R) <$> seq 0 (length signal) in
  let carrier :=
    (fun tk : R =>
       Complex.exp
         (Complex.mul
            (Complex.mul
               (Complex.mul (Complex.mul Complex.j (Complex.of_real 2))
                  (Complex.of_real PI))
               (Complex.of_real frequency_offset))
            (Complex.of_real tk))) <$> t in
  zip_with (fun x c => Complex.mul (Complex.of_real x) c) signal carrier.

Section methods.
Context {Radio : Type} `{SoapySDR Radio}.

Definition set_view (v : Tk.t) (self : RCController Radio) : RCController Radio :=
  {| view := v; generator := generator self; radio := radio self;
     _stop_command := _stop_command self;
     _current_command := _current_command self;
     _job := _job self; written := written self |}.

Definition set_job (id : nat) (self : RCController Radio) : RCController Radio :=
  {| view := view self; generator := generator self; radio := radio self;
     _stop_command := _stop_command self;
     _current_command := _current_command self;
     _job := Some id; written := written self |}.

Definition set_current_command (b : list C) (self : RCController Radio)
  : RCController Radio :=
  {| view := view self; generator := generator self; radio := radio self;
     _stop_command := _stop_command self;
     _current_command := Some b;
     _job := _job self; written := written self |}.

Definition set_radio (r : Radio) (c : write_call) (self : RCController Radio)
  : RCController Radio :=
  {| view := view self; generator := generator self; radio := r;
     _stop_command := _stop_command self;
     _current_command := _current_command self;
     _job := _job self; written := written self ++ [c] |}.

(** [self.view.after_cancel(self._job)]. *)
Definition cancel_job : Py.method (RCController Radio) unit :=
  let* self := Py.get in
  match _job self with
  | None => Py.raise Py.AttributeError
  | Some id => Py.modify (set_view (Tk.after_cancel id (view self)))
  end.

(** [self._job = self.view.after(ms, self._transmit_current_command)]. *)
Definition install_job (ms : Z) : Py.method (RCController Radio) unit :=
  let* self := Py.get in
  let (id, v) := Tk.after ms Tk._transmit_current_command_cb (view self) in
  Py.modify (fun self => set_job id (set_view v self)).

(** [__init__(self)], given the radio that [SoapySDR.Device] opened. *)
Definition __init__ (r : Radio) : Py.outcome (RCController Radio) :=
  let generator := (RCControllerSignalGenerator.__init__ _sample_rate) in
  match RCControllerSignalGenerator.generate_signal generator "x" with
  | None => Py.Raise Py.TypeError
  | Some cmd_stop =>
      Py.Return
        {| view := Tk.create; generator := generator; radio := r;
           _stop_command := _modulate_signal (np_array cmd_stop);
           _current_command := None; _job := None; written := [] |}
  end.

(** [_set_current_command(self, direction)].  [4*cmd] raises a
    [TypeError] when [cmd] is [None]. *)
Definition _set_current_command (direction : string)
  : Py.method (RCController Radio) unit :=
  let* self := Py.get in
  match RCControllerSignalGenerator.generate_signal (generator self) direction with
  | None => Py.raise Py.TypeError
  | Some cmd =>
      let mod_signal := _modulate_signal (np_array (Py.list_mul 4 cmd)) in
      Py.modify (set_current_command mod_signal)
  end.

(** One call [sr = self.radio.writeStream(self.txStream, [buffer], size)]:
    the radio answers and moves on, and the call joins the history. *)
Definition call_writeStream (buffer : list C) (size : Z)
  : Py.method (RCController Radio) Z :=
  fun self =>
    let (ret, r) := writeStream (radio self) buffer size in
    (Py.Return ret,
     set_radio r {| call_buffer := buffer; call_size := size; call_ret := ret |} self).

(** The [while] loop of [_transmit_command]: [fuel] bounds the number of
    iterations.  The diagnostic [print] before the assertion writes to
    the console only. *)
Fixpoint transmit_loop (fuel : nat) (numSampsTotal : Z) (buffer : list C)
  : Py.method (RCController Radio) unit :=
  if numSampsTotal =? 0 then Py.ret tt
  else
    match fuel with
    | O => fun self => (Py.Running, self)
    | S fuel' =>
        let size := Z.min (Py.len buffer) numSampsTotal in
        let* ret := call_writeStream buffer size in
        if 0 <? ret then
          transmit_loop fuel' (numSampsTotal - ret) (Py.slice_from ret buffer)
        else Py.raise Py.AssertionError
    end.

(** [_transmit_command(self, buffer)]. *)
Definition _transmit_command (fuel : nat) (buffer : list C)
  : Py.method (RCController Radio) unit :=
  let numSampsTotal := Py.len buffer in
  transmit_loop fuel numSampsTotal buffer.

(** [_transmit_current_command(self)]. *)
Definition _transmit_current_command (fuel : nat)
  : Py.method (RCController Radio) unit :=
  let* self := Py.get in
  match _current_command self with
  | None => Py.raise Py.AttributeError
  | Some buffer =>
      _transmit_command fuel buffer ;;;
      install_job 2
  end.

(** [_transmit_stop_command(self)]. *)
Definition _transmit_stop_command (fuel : nat)
  : Py.method (RCController Radio) unit :=
  cancel_job ;;;
  (let* self := Py.get in _transmit_command fuel (_stop_command self)) ;;;
  _set_current_command "o" ;;;
  install_job 2.

(** [_button_press_handler(self, direction)]. *)
Definition _button_press_handler (direction : string)
  : Py.method (RCController Radio) unit :=
  cancel_job ;;;
  _set_current_command direction ;;;
  install_job _after_delay_ms.

(** [_button_unpress_handler(self, direction)]. *)
Definition _button_unpress_handler (fuel : nat) (direction : string)
  : Py.method (RCController Radio) unit :=
  _transmit_stop_command fuel.

(** [_key_press_handler(self, key)]. *)
Definition _key_press_handler (key : string)
  : Py.method (RCController Radio) unit :=
  match _key_map !! key with
  | None => Py.ret tt
  | Some direction =>
      cancel_job ;;;
      _set_current_command direction ;;;
      install_job _after_delay_ms
  end.

(** [_key_unpress_handler(self, *args)]: bound to [<KeyRelease>] with
    the released key's character as its one argument. *)
Definition _key_unpress_handler (fuel : nat) (key : string)
  : Py.method (RCController Radio) unit :=
  _transmit_stop_command fuel.

(** [start(self)], up to the call of [mainloop].  [activateStream] in
    between acts on the stream handle only. *)
Definition start : Py.method (RCController Radio) unit :=
  _set_current_command "o" ;;;
  install_job _after_delay_ms.

(** The event loop hands a pending job to its callback once its delay
    has passed; the job stops being pending when it fires. *)
Definition fire (fuel : nat) (id : nat) : Py.method (RCController Radio) unit :=
  let* self := Py.get in
  match Tk.pending (view self) !! id with
  | None => Py.ret tt
  | Some (_, Tk._transmit_current_command_cb) =>
      Py.modify (set_view (Tk.after_cancel id (view self))) ;;;
      _transmit_current_command fuel
  end.

End methods.

End RCController.

(** Short names for the two classes. *)
Module Generator := RCControllerSignalGenerator.
Module Controller := RCController.

(** ** The session *)

(** [__main__]: the controller is built and started; this is the state in
    which [mainloop] begins to dispatch events. *)
Definition main {Radio : Type} (r : Radio) : Py.outcome (RCController Radio) :=
  match Controller.__init__ r with
  | Py.Return rc =>
      match Controller.start rc with
      | (Py.Return _, rc') => Py.Return rc'
      | (Py.Raise e, _) => Py.Raise e
      | (Py.Running, _) => Py.Running
      end
  | Py.Raise e => Py.Raise e
  | Py.Running => Py.Running
  end.

(** What [mainloop] dispatches: a key going down or up, a button of the
    window pressed or released, a timer job coming due. *)
Inductive event : Set :=
| KeyPress (char : string)
| KeyRelease (char : string)
| ButtonPress (d : direction)
| ButtonRelease (d : direction)
| TimerDue (id : nat).

Definition dispatch {Radio : Type} `{SoapySDR Radio} (fuel : nat) (ev : event)
  : Py.method (RCController Radio) unit :=
  match ev with
  | KeyPress char => Controller._key_press_handler char
  | KeyRelease char => Controller._key_unpress_handler fuel char
  | ButtonPress d => Controller._button_press_handler (button_label d)
  | ButtonRelease d => Controller._button_unpress_handler fuel (button_label d)
  | TimerDue id => Controller.fire fuel id
  end.

(** No job is pending but, at most, the one [_job] names. *)
Definition one_job_at_most {Radio : Type} (self : RCController Radio) : Prop :=
  exists j : nat,
    _job self = Some j /\
    forall i : nat, i <> j -> Tk.pending (view self) !! i = None.

(** No job is pending, and [_job] is set. *)
Definition no_job_pending {Radio : Type} (self : RCController Radio) : Prop :=
  is_Some (_job self) /\ Tk.pending (view self) = ∅.

(** [mainloop] over the events that arrive.  Tk reports an exception that
    a handler raises and goes on to the next event; a handler that does not
    return keeps the loop from going on. *)
Fixpoint mainloop {Radio : Type} `{SoapySDR Radio} (fuel : nat) (events : list event)
    (self : RCController Radio) : RCController Radio :=
  match events with
  | [] => self
  | ev :: events' =>
      match dispatch fuel ev self with
      | (Py.Running, self') => self'
      | (_, self') => mainloop fuel events' self'
      end
  end.

(** [m], run from a state in [P], returns in a state in [Q]; if it ends
    otherwise, it leaves a state in [inv]. *)
Definition ensures {S A : Type} (inv P : S -> Prop) (m : Py.method S A) (Q : S -> Prop)
  : Prop :=
  forall (s : S) (o : Py.outcome A) (s' : S),
    P s -> m s = (o, s') ->
    match o with
    | Py.Return _ => Q s'
    | _ => inv s'
    end.

(** ** Reading the history of [writeStream] calls *)

(** The samples the calls took, one after the other. *)
Definition on_air (calls : list write_call) : list C :=
  concat (accepted <$> calls).

(** The number of samples the calls took in all. *)
Definition total_ret (calls : list write_call) : Z :=
  foldr (fun c acc => call_ret c + acc) 0 calls.

(** The calls continue one another over [buffer]: the first is offered
    [buffer] whole, and each next one what is left once the samples the
    call before it took are dropped from the front. *)
Fixpoint follows (buffer : list C) (calls : list write_call) : Prop :=
  match calls with
  | [] => True
  | c :: calls' =>
      call_buffer c = buffer /\ call_size c = Py.len buffer /\
      follows (Py.slice_from (call_ret c) buffer) calls'
  end.

(** The calls are the radio's own: from state [r] on, each call's count is
    what [writeStream] answered to the buffer and the size of that call, the
    next call finds the radio as that answer left it, and [r'] is the radio
    after the last. *)
Fixpoint answered {Radio : Type} `{SoapySDR Radio}
    (r : Radio) (calls : list write_call) (r' : Radio) : Prop :=
  match calls with
  | [] => r' = r
  | c :: calls' =>
      call_ret c = (writeStream r (call_buffer c) (call_size c)).1 /\
      answered (writeStream r (call_buffer c) (call_size c)).2 calls' r'
  end.

(** The radio took some and no more than it was offered. *)
Definition took_some (c : write_call) : Prop := 0 < call_ret c <= call_size c.

(** A transmission leaves every attribute but the radio as it was. *)
Definition same_attributes {Radio : Type} (self self' : RCController Radio) : Prop :=
  view self' = view self /\ generator self' = generator self /\
  _stop_command self' = _stop_command self /\
  _current_command self' = _current_command self /\ _job self' = _job self.

(** The radio never reports more samples than the call offered it. *)
Definition respects_size (Radio : Type) `{SoapySDR Radio} : Prop :=
  forall (r : Radio) (buffer : list C) (size : Z),
    0 < size -> (writeStream r buffer size).1 <= size.

(** The radio always takes at least one sample. *)
Definition always_accepts (Radio : Type) `{SoapySDR Radio} : Prop :=
  forall (r : Radio) (buffer : list C) (size : Z),
    0 < size -> 0 < (writeStream r buffer size).1.

(** Radios to run the controller against.  [eager_radio] takes all it is
    offered; [trickle_radio] takes one, two or three samples in turn, never
    more than offered; [deaf_radio] takes two samples once and refuses from
    then on; [greedy_radio] reports four samples taken whatever it is
    offered. *)
Definition eager_radio : SoapySDR unit :=
  {| writeStream := fun (r : unit) (_ : list C) (size : Z) => (size, r) |}.

Definition trickle_radio : SoapySDR nat :=
  {| writeStream := fun (r : nat) (_ : list C) (size : Z) =>
                     (Z.min size (1 + Z.of_nat (r mod 3)), S r) |}.

Definition greedy_radio : SoapySDR unit :=
  {| writeStream := fun (r : unit) (_ : list C) (_ : Z) => (4, r) |}.

Definition deaf_radio : SoapySDR bool :=
  {| writeStream := fun (r : bool) (_ : list C) (size : Z) =>
                     (if r then -1 else Z.min size 2, true) |}.

(** The offset of the sub-carrier from the frequency the radio is tuned
    to, and the phase the carrier has reached at sample [k]. *)
Definition f_offset : R :=
  (Q2R Controller._rc_control_frequency - Q2R Controller._radio_center_frequency)%R.

Definition phase (k : nat) : R :=
  (2 * PI * f_offset * (INR k / Q2R Controller._sample_rate))%R.

(** ** The rest of the script, and words to speak of it *)

(** [RCControllerButtonLight._key_bindings]: a key for each button label,
    in either case. *)
Module RCControllerButtonLight.

Definition _key_bindings : gmap string string :=
  list_to_map
    [("N", "w"); ("n", "w"); ("S", "x"); ("s", "x");
     ("E", "d"); ("e", "d"); ("W", "a"); ("w", "a");
     ("NE", "e"); ("ne", "e"); ("SE", "c"); ("se", "c");
     ("NW", "q"); ("nw", "q"); ("SW", "z"); ("sw", "z")].

End RCControllerButtonLight.

(** [command] holds the letter, in its lower or its upper case. *)
Definition holds (lower upper : ascii) (command : string) : Prop :=
  In lower (list_ascii_of_string command) \/ In upper (list_ascii_of_string command).

(** The six letters [generate_signal] looks for, each in both cases. *)
Definition letter_classes : list (ascii * ascii) :=
  [("n", "N"); ("s", "S"); ("e", "E"); ("w", "W"); ("x", "X"); ("o", "O")]%char.

(** The two levels of the keyed baseband. *)
Definition two_level (x : Q) : Prop := x = 0%Q \/ x = 0.95%Q.

(** The ten locals [generate_signal] chooses from. *)
Definition waveforms (g : RCControllerSignalGenerator) : list (list Q) :=
  [Generator.cmd_forward g; Generator.cmd_forward_right g; Generator.cmd_forward_left g;
   Generator.cmd_reverse g; Generator.cmd_reverse_right g; Generator.cmd_reverse_left g;
   Generator.cmd_left g; Generator.cmd_right g;
   Generator.cmd_stop g; Generator.cmd_off g].

(** The job [_job] names comes due. *)
Definition tick {Radio : Type} `{SoapySDR Radio} (fuel : nat)
  : Py.method (RCController Radio) unit :=
  let* self := Py.get in
  match _job self with
  | None => Py.ret tt
  | Some id => Controller.fire fuel id
  end.

(** It comes due [k] times in a row, each time the job the one before
    installed. *)
Fixpoint ticks {Radio : Type} `{SoapySDR Radio} (fuel : nat) (k : nat)
  : Py.method (RCController Radio) unit :=
  match k with
  | O => Py.ret tt
  | S k' => tick fuel ;;; ticks fuel k'
  end.

(** The events that come from a key or a button going down. *)
Definition is_press (ev : event) : Prop :=
  match ev with
  | KeyPress _ | ButtonPress _ => True
  | _ => False
  end.

(** The buffer [_set_current_command] builds from a waveform. *)
Definition tiled_buffer (cmd : list Q) : list C :=
  Controller._modulate_signal (Controller.np_array (Py.list_mul 4 cmd)).

(** The current command is the buffer of a direction's frame or of the
    off waveform. *)
Definition moving_or_idle {Radio : Type} (self : RCController Radio) : Prop :=
  _current_command self = Some (tiled_buffer (Generator.cmd_off (generator self))) \/
  exists d : direction,
    _current_command self =
    Some (tiled_buffer
            (Py.list_mul 4 (Generator.long (generator self)) ++
             Py.list_mul (short_pulses d) (Generator.short (generator self)))).

(** A session over [deaf_radio] once the radio has begun to refuse: one
    job pending, a two-sample buffer to repeat. *)
Definition refusing_session : RCController bool :=
  {| view := {| Tk.pending := {[ 0%nat := (2, Tk._transmit_current_command_cb) ]};
                Tk.next_id := 1 |};
     generator := Generator.__init__ 8e6;
     radio := true;
     _stop_command := [(1, 0)%R];
     _current_command := Some [(1, 0)%R; (0, 1)%R];
     _job := Some 0%nat;
     written := [] |}.

(** * Properties *)

(** ** Python built-ins *)

Section PyFacts.
Context {A : Type}.
Implicit Types (l : list A) (n : Z).

Lemma length_list_mul n l :
  length (Py.list_mul n l) = (Z.to_nat n * length l)%nat.
Proof.
  unfold Py.list_mul. induction (Z.to_nat n) as [|k IH]; simpl.
  - reflexivity.
  - rewrite length_app, IH. reflexivity.
Qed.

Lemma len_list_mul n l : 0 <= n -> Py.len (Py.list_mul n l) = n * Py.len l.
Proof. intros Hn. unfold Py.len. rewrite length_list_mul. lia. Qed.

Lemma len_app l1 l2 : Py.len (l1 ++ l2) = Py.len l1 + Py.len l2.
Proof. unfold Py.len. rewrite length_app. lia. Qed.

Lemma list_mul_singleton n (x : A) :
  Py.list_mul n [x] = replicate (Z.to_nat n) x.
Proof.
  unfold Py.list_mul. induction (Z.to_nat n) as [|k IH]; simpl; congruence.
Qed.

Lemma list_mul_replicate n (k : nat) (x : A) :
  Py.list_mul n (replicate k x) = replicate (Z.to_nat n * k) x.
Proof.
  unfold Py.list_mul. induction (Z.to_nat n) as [|m IH]; simpl.
  - reflexivity.
  - rewrite IH, replicate_add. reflexivity.
Qed.

Lemma len_nonneg l : 0 <= Py.len l.
Proof. unfold Py.len. lia. Qed.

End PyFacts.

(** [c in s] for a one-character string [c] is membership of the character. *)
Lemma str_in_char (c : ascii) (s : string) :
  Py.str_in (String c EmptyString) s = true <-> In c (list_ascii_of_string s).
Proof.
  induction s as [|a s IH]; simpl.
  - split; [discriminate | tauto].
  - rewrite orb_true_iff, IH.
    assert (Hhd : (if ascii_dec c a then String.prefix "" s else false) = true <-> a = c).
    { destruct (ascii_dec c a) as [->|Hne].
      - destruct s; simpl; tauto.
      - split; [discriminate | congruence]. }
    rewrite Hhd. tauto.
Qed.

Lemma str_in_char_false (c : ascii) (s : string) :
  Py.str_in (String c EmptyString) s = false <-> ~ In c (list_ascii_of_string s).
Proof. rewrite <- str_in_char. destruct (Py.str_in _ s); split; congruence. Qed.

(** [int] truncates: on a non-negative argument it is the floor. *)
Lemma int_nonneg_floor (x : Q) : (0 <= x)%Q -> Py.int x = Qfloor x.
Proof.
  destruct x as [p q]. unfold Qle, Py.int, Qfloor. simpl. intros Hp.
  apply Z.quot_div_nonneg; lia.
Qed.

Lemma int_bounds (x : Q) :
  (0 <= x)%Q -> (inject_Z (Py.int x) <= x /\ x < inject_Z (Py.int x + 1))%Q.
Proof.
  intros Hx. rewrite (int_nonneg_floor x Hx). split.
  - apply Qfloor_le.
  - apply Qlt_floor.
Qed.

(** Rounding to a double keeps the sign. *)
Lemma round_nonneg (x : Q) : (0 <= x)%Q -> 0 <= Py.round x.
Proof.
  intros Hx. unfold Py.round.
  assert (Hf : 0 <= Qfloor x).
  { rewrite <- (Qfloor_Z 0). apply Qfloor_resp_le. assumption. }
  destruct (x - inject_Z (Qfloor x) ?= 1 # 2)%Q; [destruct (Z.even _)| |]; lia.
Qed.

Lemma float_nonneg (x : Q) : (0 <= x)%Q -> (0 <= Py.float x)%Q.
Proof.
  intros Hx. unfold Py.float. destruct (Qeq_bool x 0); [apply Qle_refl|].
  cbv zeta. set (e := Z.max (Py.ilog2 x - 52) (-1074)).
  assert (He : (0 < 2 ^ e)%Q) by (apply Qpower_0_lt; reflexivity).
  apply Qmult_le_0_compat; [|apply Qlt_le_weak, He].
  change 0%Q with (inject_Z 0) at 1. rewrite <- Zle_Qle. apply round_nonneg.
  apply Qmult_le_0_compat; [assumption|].
  apply Qlt_le_weak, Qinv_lt_0_compat, He.
Qed.

Lemma float_mul_nonneg (x y : Q) :
  (0 <= x)%Q -> (0 <= y)%Q -> (0 <= Py.float_mul x y)%Q.
Proof.
  intros Hx Hy. unfold Py.float_mul.
  apply float_nonneg, Qmult_le_0_compat; apply float_nonneg; assumption.
Qed.

(** From here on the product is taken as a whole. *)
Opaque Py.float_mul.

(** ** The command encoder *)

Section GeneratorFacts.
Variable self : RCControllerSignalGenerator.

#[local] Abbreviation n := (Generator.samples_per_bit self).

Lemma low_replicate : Generator.low self = replicate n 0%Q.
Proof.
  unfold Generator.samples_per_bit, Generator.low.
  rewrite list_mul_singleton, length_replicate. reflexivity.
Qed.

Lemma high_replicate : Generator.high self = replicate n 0.95%Q.
Proof.
  unfold Generator.samples_per_bit, Generator.low, Generator.high.
  rewrite !list_mul_singleton, length_replicate. reflexivity.
Qed.

Lemma samples_per_bit_int :
  Z.of_nat n =
  Z.max 0 (Py.int (Py.float_mul (_sample_rate self) Generator._clock_period)).
Proof.
  unfold Generator.samples_per_bit, Generator.low.
  rewrite list_mul_singleton, length_replicate. lia.
Qed.

Lemma long_shape :
  Generator.long self = replicate (3 * n) 0.95%Q ++ replicate n 0%Q.
Proof.
  unfold Generator.long. rewrite low_replicate, high_replicate.
  rewrite list_mul_replicate. reflexivity.
Qed.

Lemma short_shape :
  Generator.short self = replicate n 0.95%Q ++ replicate n 0%Q.
Proof.
  unfold Generator.short. rewrite low_replicate, high_replicate. reflexivity.
Qed.

Lemma len_long : Py.len (Generator.long self) = 4 * Z.of_nat n.
Proof.
  rewrite long_shape. unfold Py.len.
  rewrite length_app, !length_replicate. lia.
Qed.

Lemma len_short : Py.len (Generator.short self) = 2 * Z.of_nat n.
Proof.
  rewrite short_shape. unfold Py.len.
  rewrite length_app, !length_replicate. lia.
Qed.

(** A frame: four long bits, then [count] short bits. *)
Lemma len_frame (count : Z) :
  0 <= count ->
  Py.len (Py.list_mul 4 (Generator.long self) ++
          Py.list_mul count (Generator.short self)) =
  4 * (4 * Z.of_nat n) + count * (2 * Z.of_nat n).
Proof.
  intros Hc. rewrite len_app, !len_list_mul, len_long, len_short by lia.
  reflexivity.
Qed.

Lemma len_cmd_stop :
  Py.len (Generator.cmd_stop self) =
  15 * (4 * (4 * Z.of_nat n) + 4 * (2 * Z.of_nat n)).
Proof.
  unfold Generator.cmd_stop. rewrite len_list_mul, len_frame by lia.
  reflexivity.
Qed.

Lemma cmd_off_replicate :
  Generator.cmd_off self = replicate (10 * n) 0%Q.
Proof.
  unfold Generator.cmd_off. rewrite low_replicate, list_mul_replicate.
  reflexivity.
Qed.

Lemma len_cmd_off : Py.len (Generator.cmd_off self) = 10 * Z.of_nat n.
Proof.
  rewrite cmd_off_replicate. unfold Py.len. rewrite length_replicate. lia.
Qed.

End GeneratorFacts.

Section GeneratorClaims.
Variable self : RCControllerSignalGenerator.

(** Every waveform the encoder can return is one of its ten locals. *)
Lemma generate_signal_cases (command : string) (w : list Q) :
  Generator.generate_signal self command = Some w ->
  In w [Generator.cmd_forward_right self; Generator.cmd_forward_left self;
        Generator.cmd_forward self; Generator.cmd_reverse_right self;
        Generator.cmd_reverse_left self; Generator.cmd_reverse self;
        Generator.cmd_right self; Generator.cmd_left self;
        Generator.cmd_stop self; Generator.cmd_off self].
Proof.
  unfold Generator.generate_signal.
  repeat match goal with
         | |- context [if ?b then _ else _] => destruct b
         end;
    intros Hw; inversion Hw; subst; simpl; tauto.
Qed.

Lemma frame_whole_periods (count : Z) :
  0 <= count ->
  Py.len (Py.list_mul 4 (Generator.long self) ++
          Py.list_mul count (Generator.short self)) =
  (16 + 2 * count) * Z.of_nat (Generator.samples_per_bit self).
Proof. intros Hc. rewrite len_frame by assumption. ring. Qed.

(** Every waveform's length is a whole number of bit periods. *)
Lemma generate_signal_whole_periods (command : string) (w : list Q) :
  Generator.generate_signal self command = Some w ->
  exists k : Z, Py.len w = k * Z.of_nat (Generator.samples_per_bit self).
Proof.
  intros Hw. apply generate_signal_cases in Hw. simpl in Hw.
  destruct Hw as [<-|[<-|[<-|[<-|[<-|[<-|[<-|[<-|[<-|[<-|[]]]]]]]]]]].
  1-8: eexists; apply frame_whole_periods; lia.
  - exists 360. rewrite len_cmd_stop. ring.
  - exists 10. apply len_cmd_off.
Qed.

End GeneratorClaims.

(** At 2000 samples per second a bit period is one sample, and the shapes
    can be read off. *)
Example shapes_at_2000 :
  let g := Generator.__init__ 2000 in
  Generator.samples_per_bit g = 1%nat /\
  Generator.long g = [0.95; 0.95; 0.95; 0]%Q /\
  Generator.short g = [0.95; 0]%Q /\
  Generator.generate_signal g "S" =
    Some (Generator.long g ++ Generator.long g ++ Generator.long g ++ Generator.long g ++
          concat (replicate 10 (Generator.short g))) /\
  Generator.generate_signal g "o" = Some (replicate 10 0%Q) /\
  (length <$> Generator.generate_signal g "sw") = Some 72%nat.
Proof. repeat split. Qed.

(** A rate below one sample per bit period leaves every waveform empty; so
    does a negative one. *)
Example no_samples_below_2000 :
  Generator.generate_signal (Generator.__init__ 1999) "N" = Some [] /\
  Generator.generate_signal (Generator.__init__ (-8e6)) "x" = Some [].
Proof. split; reflexivity. Qed.

(** The generator the controller builds: [RCControllerSignalGenerator(8e6)]. *)
Lemma samples_per_bit_8e6 :
  Generator.samples_per_bit (Generator.__init__ 8e6) = 4000%nat.
Proof. vm_compute. reflexivity. Qed.

(** In binary64 the configured rate gives the same 4000 samples, and 3600
    samples per second the same single sample, as the encoder does. *)
Example samples_per_bit_8e6_binary64 :
  Binary64.samples_per_bit Binary64._sample_rate = Some 4000%nat /\
  Generator.samples_per_bit (Generator.__init__ Controller._sample_rate) = 4000%nat.
Proof. split; vm_compute; reflexivity. Qed.

Example samples_per_bit_3600_binary64 :
  Binary64.samples_per_bit Binary64.slow_sample_rate = Some 1%nat /\
  Generator.samples_per_bit (Generator.__init__ 3600) = 1%nat.
Proof. split; vm_compute; reflexivity. Qed.

(** C1.  For each of the eight directions, under its button label and under
    its key-map spelling alike, [generate_signal] returns four long bits
    followed by the direction's number of short bits.  A long bit is three
    bit periods of 0.95 and one of 0, a short bit one period of each, so the
    frame is [4*(4n) + count*(2n)] samples long, [n] being the samples per
    bit period.  At 8,000,000 samples per second [n] is 4000 and the
    forward frame has 384,000 samples. *)
Theorem direction_frames :
  (forall (self : RCControllerSignalGenerator) (d : direction),
      let n := Generator.samples_per_bit self in
      let frame :=
        Py.list_mul 4 (Generator.long self) ++
        Py.list_mul (short_pulses d) (Generator.short self) in
      Generator.generate_signal self (button_label d) = Some frame /\
      Generator.generate_signal self (key_direction d) = Some frame /\
      Generator.long self = replicate (3 * n) 0.95%Q ++ replicate n 0%Q /\
      Generator.short self = replicate n 0.95%Q ++ replicate n 0%Q /\
      Py.len (Generator.long self) = 4 * Z.of_nat n /\
      Py.len (Generator.short self) = 2 * Z.of_nat n /\
      Py.len frame = 4 * (4 * Z.of_nat n) + short_pulses d * (2 * Z.of_nat n)) /\
  Generator.samples_per_bit (Generator.__init__ 8e6) = 4000%nat /\
  (exists w : list Q,
      Generator.generate_signal (Generator.__init__ 8e6) "N" = Some w /\
      Py.len w = 384000).
Proof.
  split; [|split].
  - intros self d n frame. subst n frame.
    split; [destruct d; reflexivity|].
    split; [destruct d; reflexivity|].
    split; [apply long_shape|].
    split; [apply short_shape|].
    split; [apply len_long|].
    split; [apply len_short|].
    apply len_frame. destruct d; simpl; lia.
  - exact samples_per_bit_8e6.
  - exists (Generator.cmd_forward (Generator.__init__ 8e6)).
    split; [reflexivity|]. unfold Generator.cmd_forward.
    rewrite len_frame, samples_per_bit_8e6 by lia. reflexivity.
Qed.

(** C2.  The STOP token ([x], in either case) yields fifteen repetitions of
    four long and four short bits, [15*(4*4n + 4*2n)] samples; the IDLE
    token ([o]) yields [10*n] samples, every one of them 0. *)
Theorem stop_and_idle_frames (self : RCControllerSignalGenerator) :
  let n := Generator.samples_per_bit self in
  let stop :=
    Py.list_mul 15 (Py.list_mul 4 (Generator.long self) ++
                    Py.list_mul 4 (Generator.short self)) in
  Generator.generate_signal self "x" = Some stop /\
  Generator.generate_signal self "X" = Some stop /\
  Py.len stop = 15 * (4 * (4 * Z.of_nat n) + 4 * (2 * Z.of_nat n)) /\
  Generator.generate_signal self "o" = Some (replicate (10 * n) 0%Q) /\
  Generator.generate_signal self "O" = Some (replicate (10 * n) 0%Q) /\
  Py.len (replicate (10 * n) 0%Q) = 10 * Z.of_nat n /\
  Forall (fun x : Q => x = 0%Q) (replicate (10 * n) 0%Q).
Proof.
  intros n stop. subst n stop.
  split; [reflexivity|]. split; [reflexivity|].
  split; [apply len_cmd_stop|].
  rewrite <- cmd_off_replicate.
  split; [reflexivity|]. split; [reflexivity|].
  split; [apply len_cmd_off|].
  rewrite cmd_off_replicate. apply Forall_replicate. reflexivity.
Qed.

(** C8.  A command that holds an [n] or [N] and an [e] or [E], wherever
    they stand and whatever else it holds, yields the forward-right frame:
    four long bits and 46 short ones. *)
Theorem diagonal_any_order_any_case
    (self : RCControllerSignalGenerator) (command : string) :
  (In "n"%char (list_ascii_of_string command) \/
   In "N"%char (list_ascii_of_string command)) ->
  (In "e"%char (list_ascii_of_string command) \/
   In "E"%char (list_ascii_of_string command)) ->
  Generator.generate_signal self command =
  Some (Py.list_mul 4 (Generator.long self) ++
        Py.list_mul 46 (Generator.short self)).
Proof.
  intros Hn He. rewrite <- !str_in_char in Hn, He.
  apply orb_true_iff in Hn. apply orb_true_iff in He.
  unfold Generator.generate_signal. rewrite Hn, He. reflexivity.
Qed.

(** For instance [xEwn]: the [n] comes last, the [E] is a capital, and an
    [x] and a [w] stand beside them. *)
Lemma diagonal_any_order_any_case_witness :
  Generator.generate_signal (Generator.__init__ 8e6) "xEwn" =
  Some (Py.list_mul 4 (Generator.long (Generator.__init__ 8e6)) ++
        Py.list_mul 46 (Generator.short (Generator.__init__ 8e6))).
Proof.
  apply (diagonal_any_order_any_case (Generator.__init__ 8e6) "xEwn").
  - left. simpl. tauto.
  - right. simpl. tauto.
Defined.

(** C7, as the specification words it, fails: at 3600 samples per second
    the product with the clock period is 1.8, which rounds to 2, while the
    encoder uses 1 sample per bit period. *)
Lemma samples_per_bit_is_not_rounded :
  Generator.samples_per_bit (Generator.__init__ 3600) = 1%nat /\
  Py.round (3600 * Generator._clock_period) = 2 /\
  Z.of_nat (Generator.samples_per_bit (Generator.__init__ 3600)) <>
  Py.round (_sample_rate (Generator.__init__ 3600) * Generator._clock_period) /\
  Py.round (Py.float_mul 3600 Generator._clock_period) = 2.
Proof. vm_compute. repeat split; congruence. Qed.

(** C7, amended.  The samples per bit period are [int(sample_rate *
    clock_period)]: the product as Python forms it, the exact product of
    the two doubles rounded to the nearest double, then truncated toward
    zero, and none when that is negative; for a non-negative rate this is
    the largest integer not above the rounded product.  Every waveform's
    length is a whole multiple of it. *)
Theorem samples_per_bit_truncates (self : RCControllerSignalGenerator) :
  let n := Z.of_nat (Generator.samples_per_bit self) in
  let x := Py.float_mul (_sample_rate self) Generator._clock_period in
  n = Z.max 0 (Py.int x) /\
  ((0 <= _sample_rate self)%Q ->
   (inject_Z n <= x)%Q /\ (x < inject_Z (n + 1))%Q) /\
  (forall (command : string) (w : list Q),
      Generator.generate_signal self command = Some w ->
      exists k : Z, Py.len w = k * n).
Proof.
  intros n x. subst n x. split; [apply samples_per_bit_int|]. split.
  - intros Hsr.
    assert (Hx : (0 <= Py.float_mul (_sample_rate self) Generator._clock_period)%Q).
    { apply float_mul_nonneg; [assumption | discriminate]. }
    destruct (int_bounds _ Hx) as [Hlo Hhi].
    assert (Hint : 0 <= Py.int (Py.float_mul (_sample_rate self) Generator._clock_period)).
    { rewrite (int_nonneg_floor _ Hx). rewrite <- (Qfloor_Z 0).
      apply Qfloor_resp_le. assumption. }
    rewrite samples_per_bit_int, Z.max_r by assumption. split; assumption.
  - apply generate_signal_whole_periods.
Qed.

(** For instance at 5200 samples per second, where the product is 2.6:
    two samples to the bit period, and an off waveform of twenty. *)
Lemma samples_per_bit_truncates_witness :
  (inject_Z 2 <= Py.float_mul 5200 Generator._clock_period)%Q /\
  exists k : Z,
    Py.len (Generator.cmd_off (Generator.__init__ 5200)) =
    k * Z.of_nat (Generator.samples_per_bit (Generator.__init__ 5200)).
Proof.
  destruct (samples_per_bit_truncates (Generator.__init__ 5200))
    as (_ & Hb & Hw).
  split.
  - apply Hb. discriminate.
  - apply (Hw "o"). reflexivity.
Defined.

(** The rounding of the product counts.  At the rate that prints as
    [129999.99999999999] the exact product lies below 65 and the double
    nearest to it is 65: the encoder uses 65 samples, on machine doubles
    and in the reading above alike, where the exact product truncates to
    64. *)
Example samples_per_bit_at_the_edge :
  Binary64.value Binary64.edge_sample_rate = Some (Py.float 129999.99999999999) /\
  Binary64.samples_per_bit Binary64.edge_sample_rate = Some 65%nat /\
  Generator.samples_per_bit (Generator.__init__ 129999.99999999999) = 65%nat /\
  Py.int (Py.float 129999.99999999999 * Py.float Generator._clock_period) = 64.
Proof. vm_compute. repeat split. Qed.

(** [Py.float] and [Py.float_mul] against the machine's doubles: the
    literal of the clock period, and products that are exact, rounded,
    negative and subnormal. *)
Example float_mul_on_machine_doubles :
  let agree (x : PrimFloat.float) (q : Q) :=
    match Binary64.value x, Binary64.value (PrimFloat.mul x Binary64._clock_period) with
    | Some v, Some p =>
        Qeq_bool v (Py.float q) && Qeq_bool p (Py.float_mul q Generator._clock_period)
    | _, _ => false
    end in
  (flip Qeq_bool (Py.float Generator._clock_period) <$>
     Binary64.value Binary64._clock_period) = Some true /\
  agree Binary64._sample_rate 8e6%Q = true /\
  agree Binary64.slow_sample_rate 3600%Q = true /\
  agree Binary64.edge_sample_rate 129999.99999999999%Q = true /\
  agree (PrimFloat.opp Binary64.slow_sample_rate) (-3600)%Q = true /\
  agree Binary64.audio_sample_rate 44100%Q = true /\
  agree Binary64.tiny_sample_rate (3 * 2 ^ (-1061))%Q = true.
Proof. vm_compute. repeat split. Qed.

(** And the counts at two thousand whole rates, from 0 to some twenty
    million samples per second. *)
Example samples_per_bit_on_machine_doubles :
  forallb (fun i : nat => Binary64.same_count_at (9973 * Z.of_nat i)) (seq 0 2000) = true.
Proof. vm_compute. reflexivity. Qed.

(** An infinite or undefined rate has no count: [int] raises. *)
Example samples_per_bit_not_finite :
  Binary64.samples_per_bit PrimFloat.infinity = None /\
  Binary64.samples_per_bit PrimFloat.nan = None.
Proof. vm_compute. split; reflexivity. Qed.

(** ** The modulator *)

Section ModulatorFacts.
#[local] Open Scope R_scope.

Lemma carrier_exponent (f tk : R) :
  Complex.mul
    (Complex.mul
       (Complex.mul (Complex.mul Complex.j (Complex.of_real 2)) (Complex.of_real PI))
       (Complex.of_real f))
    (Complex.of_real tk) = (0, 2 * PI * f * tk).
Proof.
  unfold Complex.mul, Complex.j, Complex.of_real. simpl. f_equal; ring.
Qed.

Lemma exp_imaginary (theta : R) : Complex.exp (0, theta) = (cos theta, sin theta).
Proof. unfold Complex.exp. simpl. rewrite exp_0. f_equal; ring. Qed.

Lemma mul_real_phasor (x theta : R) :
  Complex.mul (Complex.of_real x) (cos theta, sin theta) =
  (x * cos theta, x * sin theta).
Proof. unfold Complex.mul, Complex.of_real. simpl. f_equal; ring. Qed.

Lemma abs_real_phasor (x theta : R) :
  Complex.abs (x * cos theta, x * sin theta) = Rabs x.
Proof.
  unfold Complex.abs. simpl.
  replace (x * cos theta * (x * cos theta) + x * sin theta * (x * sin theta))
    with (Rsqr x * (Rsqr (sin theta) + Rsqr (cos theta))) by (unfold Rsqr; ring).
  rewrite sin2_cos2, Rmult_1_r. apply sqrt_Rsqr_abs.
Qed.

Lemma length_modulate_signal (signal : list R) :
  length (Controller._modulate_signal signal) = length signal.
Proof.
  unfold Controller._modulate_signal.
  rewrite length_zip_with, !length_fmap, length_seq. lia.
Qed.

Lemma lookup_modulate_signal (signal : list R) (k : nat) (xk : R) :
  signal !! k = Some xk ->
  Controller._modulate_signal signal !! k =
  Some (Complex.mul (Complex.of_real xk) (Complex.exp (0, phase k))).
Proof.
  intros Hk. unfold Controller._modulate_signal.
  rewrite lookup_zip_with, Hk. simpl.
  rewrite !list_lookup_fmap, lookup_seq_lt by (eapply lookup_lt_Some; eassumption).
  simpl. rewrite carrier_exponent. unfold phase, f_offset.
  do 3 f_equal. f_equal. unfold Rdiv. ring.
Qed.

End ModulatorFacts.

(** C3.  [_modulate_signal] returns as many samples as it is given.  Sample
    [k] of the result is sample [k] of the input times
    [e^(i*2*pi*f_offset*k/sample_rate)], the offset being the control
    frequency less the centre frequency, so its magnitude is that of the
    input sample.  In particular a modulated frame is as long as the frame
    the encoder returned. *)
Theorem modulate_rotates_phase (x : list R) :
  let f_offset :=
    (Q2R Controller._rc_control_frequency - Q2R Controller._radio_center_frequency)%R in
  let phase (k : nat) :=
    (2 * PI * f_offset * (INR k / Q2R Controller._sample_rate))%R in
  length (Controller._modulate_signal x) = length x /\
  (forall (k : nat) (xk : R),
      x !! k = Some xk ->
      exists yk : C,
        Controller._modulate_signal x !! k = Some yk /\
        yk = Complex.mul (Complex.of_real xk) (Complex.exp (0%R, phase k)) /\
        yk = ((xk * cos (phase k))%R, (xk * sin (phase k))%R) /\
        Complex.abs yk = Rabs xk) /\
  (forall w : list Q,
      length (Controller._modulate_signal (Controller.np_array w)) = length w).
Proof.
  intros fo ph. change ph with phase. clear ph fo.
  split; [apply length_modulate_signal|]. split.
  - intros k xk Hk. eexists. split; [apply lookup_modulate_signal, Hk|].
    split; [reflexivity|].
    rewrite exp_imaginary, mul_real_phasor. split; [reflexivity|].
    apply abs_real_phasor.
  - intros w. rewrite length_modulate_signal. apply length_fmap.
Qed.

(** For instance the second sample of a two-sample signal. *)
Lemma modulate_rotates_phase_witness :
  exists yk : C,
    Controller._modulate_signal [0.95%R; 0%R] !! 1%nat = Some yk /\
    Complex.abs yk = Rabs 0%R.
Proof.
  destruct (modulate_rotates_phase [0.95%R; 0%R]) as (_ & Hk & _).
  destruct (Hk 1%nat 0%R) as (yk & Hy & _ & _ & Habs).
  - reflexivity.
  - exists yk. split; assumption.
Defined.

(** ** The write loop *)

Section WriterFacts.
Context {Radio : Type} `{SoapySDR Radio}.
Implicit Types (self : RCController Radio) (buffer : list C).

Lemma same_attributes_refl self : same_attributes self self.
Proof. repeat split. Qed.

Lemma same_attributes_trans self1 self2 self3 :
  same_attributes self1 self2 -> same_attributes self2 self3 ->
  same_attributes self1 self3.
Proof.
  unfold same_attributes. intros (? & ? & ? & ? & ?) (? & ? & ? & ? & ?).
  repeat split; congruence.
Qed.

Lemma call_writeStream_spec buffer (size : Z) self :
  exists (ret : Z) (self' : RCController Radio),
    Controller.call_writeStream buffer size self = (Py.Return ret, self') /\
    ret = (writeStream (radio self) buffer size).1 /\
    written self' =
      written self ++ [{| call_buffer := buffer; call_size := size; call_ret := ret |}] /\
    same_attributes self self'.
Proof.
  unfold Controller.call_writeStream.
  destruct (writeStream (radio self) buffer size) as [ret r]. simpl.
  eexists _, _. repeat split.
Qed.

Lemma len_slice_from (ret : Z) buffer :
  0 < ret <= Py.len buffer ->
  Py.len (Py.slice_from ret buffer) = Py.len buffer - ret.
Proof.
  unfold Py.len, Py.slice_from. intros Hret. rewrite length_drop. lia.
Qed.

(** The history is the radio's: whatever the loop does and however it
    ends, the calls it adds to the history are the calls [writeStream]
    answered, one after the other, and the radio is left as the last
    answer left it. *)
Lemma transmit_loop_answered (fuel : nat) :
  forall (numSampsTotal : Z) buffer self,
    exists calls : list write_call,
      written (Controller.transmit_loop fuel numSampsTotal buffer self).2 =
        written self ++ calls /\
      answered (radio self) calls
        (radio (Controller.transmit_loop fuel numSampsTotal buffer self).2).
Proof.
  induction fuel as [|fuel IH]; intros numSampsTotal buffer self; simpl;
    destruct (numSampsTotal =? 0);
    try (exists []; simpl; rewrite app_nil_r; split; reflexivity).
  unfold Py.bind, Controller.call_writeStream.
  set (size := Z.min (Py.len buffer) numSampsTotal).
  destruct (writeStream (radio self) buffer size) as [ret r] eqn:Hws.
  set (c := {| call_buffer := buffer; call_size := size; call_ret := ret |}).
  destruct (0 <? ret).
  - destruct (IH (numSampsTotal - ret) (Py.slice_from ret buffer)
                (Controller.set_radio r c self)) as (calls & Hw & Hans).
    exists (c :: calls). split.
    + rewrite Hw. simpl. rewrite <- app_assoc. reflexivity.
    + simpl. rewrite Hws. split; [reflexivity | exact Hans].
  - exists [c]. simpl. rewrite Hws. repeat split.
Qed.

(** What a run of the loop over a whole buffer does, when the radio
    respects the size it is offered: it ends within [length buffer]
    iterations, either with every sample taken or on the first call the
    radio refuses. *)
Lemma transmit_loop_run (Hsize : respects_size Radio) (fuel : nat) :
  forall buffer self,
    (length buffer <= fuel)%nat ->
    exists (o : Py.outcome unit) (self' : RCController Radio) (calls : list write_call),
      Controller.transmit_loop fuel (Py.len buffer) buffer self = (o, self') /\
      written self' = written self ++ calls /\
      same_attributes self self' /\
      follows buffer calls /\
      ((o = Py.Return tt /\ Forall took_some calls /\ total_ret calls = Py.len buffer) \/
       (o = Py.Raise Py.AssertionError /\
        ~ always_accepts Radio /\
        exists good bad, calls = good ++ [bad] /\ Forall took_some good /\
                         total_ret good < Py.len buffer /\ call_ret bad <= 0)).
Proof.
  induction fuel as [|fuel IH]; intros buffer self Hfuel.
  - destruct buffer; [|simpl in Hfuel; lia].
    exists (Py.Return tt), self, []. simpl. rewrite app_nil_r.
    repeat split. left. repeat split. constructor.
  - simpl. destruct (Z.eqb_spec (Py.len buffer) 0) as [Hz|Hnz].
    + exists (Py.Return tt), self, []. unfold Py.ret. rewrite app_nil_r.
      repeat split. left. repeat split; [constructor | simpl; lia].
    + assert (Hpos : 0 < Py.len buffer) by (pose proof (len_nonneg buffer); lia).
      rewrite Z.min_id. unfold Py.bind.
      destruct (call_writeStream_spec buffer (Py.len buffer) self)
        as (ret & self1 & -> & Hret & Hw1 & Hat1).
      pose proof (Hsize (radio self) buffer _ Hpos) as Hle. rewrite <- Hret in Hle.
      destruct (Z.ltb_spec 0 ret) as [Hgt|Hngt].
      * rewrite <- len_slice_from by lia.
        destruct (IH (Py.slice_from ret buffer) self1)
          as (o & self' & calls & -> & Hw & Hat & Hfol & Hend).
        { unfold Py.slice_from. rewrite length_drop.
          unfold Py.len in Hle. lia. }
        set (c := {| call_buffer := buffer; call_size := Py.len buffer; call_ret := ret |}) in *.
        exists o, self', (c :: calls). split; [reflexivity|].
        split; [rewrite Hw, Hw1, <- app_assoc; reflexivity|].
        split; [eapply same_attributes_trans; eassumption|].
        split; [simpl; auto|].
        destruct Hend as [(-> & Hall & Htot)|(-> & Hna & good & bad & -> & Hall & Hlt & Hbad)].
        -- left. split; [reflexivity|]. split.
           ++ constructor; [unfold took_some; simpl; lia | assumption].
           ++ simpl. rewrite Htot, len_slice_from by lia. lia.
        -- right. split; [reflexivity|]. split; [assumption|].
           exists (c :: good), bad.
           split; [reflexivity|]. split; [|split; [|assumption]].
           ++ constructor; [unfold took_some; simpl; lia | assumption].
           ++ simpl. rewrite len_slice_from in Hlt by lia. lia.
      * set (c := {| call_buffer := buffer; call_size := Py.len buffer; call_ret := ret |}) in *.
        exists (Py.Raise Py.AssertionError), self1, [c].
        split; [reflexivity|]. split; [assumption|]. split; [assumption|].
        split; [simpl; auto|].
        right. split; [reflexivity|]. split.
        { intros Hacc. specialize (Hacc (radio self) buffer _ Hpos). lia. }
        exists [], c. simpl. repeat split; [constructor | lia | lia].
Qed.

Lemma took_some_total_nonneg (calls : list write_call) :
  Forall took_some calls -> 0 <= total_ret calls.
Proof.
  induction 1 as [|c cs Hc _ IH]; simpl; [lia|]. unfold took_some in Hc. lia.
Qed.

(** Each call is offered the buffer from its first sample not yet taken. *)
Lemma follows_lookup (calls : list write_call) :
  forall buffer (i : nat) (c : write_call),
    follows buffer calls ->
    Forall took_some (take i calls) ->
    calls !! i = Some c ->
    call_buffer c = drop (Z.to_nat (total_ret (take i calls))) buffer /\
    call_size c = Py.len buffer - total_ret (take i calls).
Proof.
  induction calls as [|c0 cs IH]; intros buffer i c Hfol Hall Hc; [discriminate|].
  destruct Hfol as (Hb & Hs & Hfol). destruct i as [|i]; simpl in *.
  - injection Hc as <-. rewrite Hb, Hs. split; [reflexivity | lia].
  - apply Forall_cons in Hall as [Hc0 Hall].
    destruct (IH _ i c Hfol Hall Hc) as [Hcb Hcs].
    pose proof (took_some_total_nonneg _ Hall) as Hnn.
    unfold took_some in Hc0. rewrite Hs in Hc0.
    rewrite Hcb, Hcs, len_slice_from by assumption.
    unfold Py.slice_from. rewrite drop_drop, Z2Nat.inj_add by lia.
    split; [reflexivity | lia].
Qed.

Lemma on_air_cons (c : write_call) (cs : list write_call) :
  on_air (c :: cs) = accepted c ++ on_air cs.
Proof. reflexivity. Qed.

(** When the calls took the whole buffer between them, what went on air
    is the buffer, sample for sample. *)
Lemma follows_on_air (calls : list write_call) :
  forall buffer,
    follows buffer calls -> Forall took_some calls ->
    total_ret calls = Py.len buffer ->
    on_air calls = buffer.
Proof.
  induction calls as [|c cs IH]; intros buffer Hfol Hall Htot; simpl in *.
  - destruct buffer; [reflexivity | discriminate].
  - destruct Hfol as (Hb & Hs & Hfol). apply Forall_cons in Hall as [Hc Hall].
    unfold took_some in Hc. rewrite Hs in Hc.
    rewrite on_air_cons.
    rewrite (IH (Py.slice_from (call_ret c) buffer)); try assumption.
    + unfold accepted, Py.slice_from. rewrite Hb. apply take_drop.
    + rewrite len_slice_from by assumption. lia.
Qed.

End WriterFacts.

(** C4.  Over a radio that never reports more than it was offered,
    [_transmit_command] on a buffer of [L] samples ends within [L] calls of
    [writeStream].  Call [i] is offered the buffer from the first sample
    the earlier calls did not take, and as many samples as are left.  The
    method returns once the counts add up to [L], the samples taken being
    the buffer from first to last, or it raises the assertion's error at
    the first call that reports no sample taken; it is never still looping.
    A radio that takes at least one sample at every call makes it return.
    The calls are the radio's own: each count is what [writeStream]
    answered to that call, and the radio is left as the last call left it. *)
Theorem transmit_command_writes_all {Radio : Type} `{SoapySDR Radio}
    (fuel : nat) (buffer : list C) (self : RCController Radio) :
  respects_size Radio ->
  (length buffer <= fuel)%nat ->
  exists (o : Py.outcome unit) (self' : RCController Radio) (calls : list write_call),
    Controller._transmit_command fuel buffer self = (o, self') /\
    written self' = written self ++ calls /\
    answered (radio self) calls (radio self') /\
    (length calls <= length buffer)%nat /\
    (forall (i : nat) (c : write_call),
        calls !! i = Some c ->
        call_buffer c = drop (Z.to_nat (total_ret (take i calls))) buffer /\
        call_size c = Py.len buffer - total_ret (take i calls)) /\
    ((o = Py.Return tt /\
      Forall (fun c => 0 < call_ret c) calls /\
      total_ret calls = Py.len buffer /\
      on_air calls = buffer) \/
     (o = Py.Raise Py.AssertionError /\
      exists good bad,
        calls = good ++ [bad] /\
        Forall (fun c => 0 < call_ret c) good /\
        call_ret bad <= 0)) /\
    (always_accepts Radio -> o = Py.Return tt).
Proof.
  intros Hsize Hfuel. unfold Controller._transmit_command.
  destruct (transmit_loop_run Hsize fuel buffer self Hfuel)
    as (o & self' & calls & Hrun & Hw & _ & Hfol & Hend).
  exists o, self', calls. split; [assumption|]. split; [assumption|].
  split.
  { destruct (transmit_loop_answered fuel (Py.len buffer) buffer self)
      as (calls' & Hw' & Hans).
    rewrite Hrun in Hw', Hans. simpl in Hw', Hans.
    rewrite Hw in Hw'. apply app_inv_head in Hw'. rewrite Hw'. exact Hans. }
  assert (Hpos : forall cs, Forall took_some cs -> Forall (fun c => 0 < call_ret c) cs).
  { intros cs Hcs. eapply Forall_impl; [exact Hcs|].
    unfold took_some. intros c Hc. lia. }
  assert (Hlen : forall cs, Forall took_some cs -> Z.of_nat (length cs) <= total_ret cs).
  { induction 1 as [|c cs Hc _ IH]; simpl; [lia|]. unfold took_some in Hc. lia. }
  assert (Hbound : (length calls <= length buffer)%nat /\
                   forall i, (i < length calls)%nat -> Forall took_some (take i calls)).
  { destruct Hend as [(_ & Hall & Htot)|(_ & _ & good & bad & -> & Hall & Hlt & Hbad)].
    - split; [specialize (Hlen _ Hall); unfold Py.len in Htot; lia|].
      intros i _. apply Forall_take. assumption.
    - rewrite length_app. simpl. split.
      + specialize (Hlen _ Hall). unfold Py.len in Hlt. lia.
      + intros i Hi. rewrite take_app_le by lia. apply Forall_take. assumption. }
  destruct Hbound as [Hcount Htake].
  split; [assumption|]. split.
  - intros i c Hc. apply (follows_lookup calls buffer i c Hfol); [|assumption].
    apply Htake. eapply lookup_lt_Some. eassumption.
  - split.
    + destruct Hend as [(-> & Hall & Htot)|(-> & _ & good & bad & -> & Hall & _ & Hbad)].
      * left. split; [reflexivity|]. split; [apply Hpos, Hall|].
        split; [assumption|]. apply follows_on_air; assumption.
      * right. split; [reflexivity|]. exists good, bad.
        split; [reflexivity|]. split; [apply Hpos, Hall | assumption].
    + intros Hacc. destruct Hend as [(-> & _)|(_ & Hna & _)]; [reflexivity|].
      contradiction.
Qed.

Lemma trickle_radio_respects_size : @respects_size nat trickle_radio.
Proof. intros r buffer size Hsize. simpl. lia. Qed.

Lemma trickle_radio_always_accepts : @always_accepts nat trickle_radio.
Proof. intros r buffer size Hsize. simpl. lia. Qed.

Lemma eager_radio_respects_size : @respects_size unit eager_radio.
Proof. intros r buffer size Hsize. simpl. lia. Qed.

Lemma eager_radio_always_accepts : @always_accepts unit eager_radio.
Proof. intros r buffer size Hsize. simpl. lia. Qed.

(** For instance six samples over the trickling radio, which takes them
    in three calls. *)
Lemma transmit_command_writes_all_witness :
  let buffer : list C := [(1, 0); (0, 1); (-1, 0); (0, -1); (1, 0); (0, 1)]%R in
  let self : RCController nat :=
    {| view := Tk.create; generator := Generator.__init__ 8e6; radio := 0%nat;
       _stop_command := []; _current_command := Some buffer; _job := None;
       written := [] |} in
  exists self' : RCController nat,
    @Controller._transmit_command nat trickle_radio 6 buffer self = (Py.Return tt, self') /\
    on_air (written self') = buffer /\
    @answered nat trickle_radio 0%nat (written self') (radio self') /\
    radio self' = 3%nat.
Proof.
  intros buffer self.
  destruct (@transmit_command_writes_all nat trickle_radio 6 buffer self)
    as (o & self' & calls & Hrun & Hw & Hans & _ & _ & Hend & Hacc).
  - exact trickle_radio_respects_size.
  - simpl. lia.
  - exists self'. rewrite Hw. simpl.
    pose proof (f_equal (fun p => radio p.2) Hrun) as Hradio. simpl in Hradio.
    rewrite Hrun.
    destruct Hend as [(-> & _ & _ & Hair)|(Ho & _)].
    + split; [reflexivity|]. split; [exact Hair|].
      split; [exact Hans | symmetry; exact Hradio].
    + exfalso. rewrite (Hacc trickle_radio_always_accepts) in Ho. discriminate.
Defined.

(** The trickling radio is handed the six samples in three calls, of one,
    two and three samples. *)
Example trickle_radio_run :
  let buffer : list C := [(1, 0); (0, 1); (-1, 0); (0, -1); (1, 0); (0, 1)]%R in
  let self : RCController nat :=
    {| view := Tk.create; generator := Generator.__init__ 8e6; radio := 0%nat;
       _stop_command := []; _current_command := Some buffer; _job := None;
       written := [] |} in
  let (o, self') := @Controller._transmit_command nat trickle_radio 6 buffer self in
  o = Py.Return tt /\
  written self' =
    [ {| call_buffer := buffer; call_size := 6; call_ret := 1 |};
      {| call_buffer := drop 1 buffer; call_size := 5; call_ret := 2 |};
      {| call_buffer := drop 3 buffer; call_size := 3; call_ret := 3 |} ].
Proof. simpl. split; reflexivity. Qed.

(** The deaf radio takes two samples and refuses the rest: the second call
    raises, and nothing is offered after it however much fuel is left. *)
Example deaf_radio_run :
  let buffer : list C := [(1, 0); (0, 1); (-1, 0); (0, -1); (1, 0); (0, 1)]%R in
  let self : RCController bool :=
    {| view := Tk.create; generator := Generator.__init__ 8e6; radio := false;
       _stop_command := []; _current_command := Some buffer; _job := None;
       written := [] |} in
  let (o, self') := @Controller._transmit_command bool deaf_radio 1000 buffer self in
  o = Py.Raise Py.AssertionError /\
  written self' =
    [ {| call_buffer := buffer; call_size := 6; call_ret := 2 |};
      {| call_buffer := drop 2 buffer; call_size := 4; call_ret := -1 |} ].
Proof. simpl. split; reflexivity. Qed.

(** ** The scheduler *)

Lemma len_tiled_buffer (cmd : list Q) : Py.len (tiled_buffer cmd) = 4 * Py.len cmd.
Proof.
  unfold tiled_buffer, Py.len, Controller.np_array.
  rewrite length_modulate_signal, length_fmap.
  change (Z.of_nat (length (Py.list_mul 4 cmd))) with (Py.len (Py.list_mul 4 cmd)).
  rewrite len_list_mul by lia. reflexivity.
Qed.

Section SchedulerFacts.
Context {Radio : Type} `{SoapySDR Radio}.
Implicit Types (self : RCController Radio) (buffer : list C).

Lemma cancel_job_run self (j : nat) :
  _job self = Some j ->
  Controller.cancel_job self =
  (Py.Return tt, Controller.set_view (Tk.after_cancel j (view self)) self).
Proof.
  intros Hj. unfold Controller.cancel_job, Py.bind, Py.get. rewrite Hj. reflexivity.
Qed.

Lemma cancel_job_unset self :
  _job self = None ->
  Controller.cancel_job self = (Py.Raise Py.AttributeError, self).
Proof.
  intros Hj. unfold Controller.cancel_job, Py.bind, Py.get. rewrite Hj. reflexivity.
Qed.

Lemma install_job_run (ms : Z) self :
  Controller.install_job ms self =
  (Py.Return tt,
   Controller.set_job (Tk.next_id (view self))
     (Controller.set_view
        {| Tk.pending :=
             <[Tk.next_id (view self) := (ms, Tk._transmit_current_command_cb)]>
               (Tk.pending (view self));
           Tk.next_id := S (Tk.next_id (view self)) |} self)).
Proof. reflexivity. Qed.

Lemma set_current_command_run (direction : string) (cmd : list Q) self :
  Generator.generate_signal (generator self) direction = Some cmd ->
  Controller._set_current_command direction self =
  (Py.Return tt,
   Controller.set_current_command
     (Controller._modulate_signal (Controller.np_array (Py.list_mul 4 cmd))) self).
Proof.
  intros Hcmd. unfold Controller._set_current_command, Py.bind, Py.get.
  rewrite Hcmd. reflexivity.
Qed.

Lemma set_current_command_none (direction : string) self :
  Generator.generate_signal (generator self) direction = None ->
  Controller._set_current_command direction self = (Py.Raise Py.TypeError, self).
Proof.
  intros Hcmd. unfold Controller._set_current_command, Py.bind, Py.get.
  rewrite Hcmd. reflexivity.
Qed.

(** A press: the job of record is dropped, the buffer rebuilt for the
    direction pressed, and a new job installed 15 ms ahead. *)
Lemma button_press_run (direction : string) (cmd : list Q) self (j : nat) :
  _job self = Some j ->
  Generator.generate_signal (generator self) direction = Some cmd ->
  exists self',
    Controller._button_press_handler direction self = (Py.Return tt, self') /\
    Tk.pending (view self') =
      <[Tk.next_id (view self) := (15, Tk._transmit_current_command_cb)]>
        (delete j (Tk.pending (view self))) /\
    Tk.next_id (view self') = S (Tk.next_id (view self)) /\
    _job self' = Some (Tk.next_id (view self)) /\
    _current_command self' =
      Some (Controller._modulate_signal (Controller.np_array (Py.list_mul 4 cmd))) /\
    generator self' = generator self /\
    _stop_command self' = _stop_command self /\
    radio self' = radio self /\
    written self' = written self.
Proof.
  intros Hj Hcmd. eexists. split.
  - unfold Controller._button_press_handler, Py.bind.
    rewrite (cancel_job_run self j Hj).
    rewrite (set_current_command_run direction cmd) by exact Hcmd.
    rewrite install_job_run. reflexivity.
  - repeat split.
Qed.

Lemma generate_signal_o (g : RCControllerSignalGenerator) :
  Generator.generate_signal g "o" = Some (Generator.cmd_off g).
Proof. reflexivity. Qed.

Lemma generate_signal_x (g : RCControllerSignalGenerator) :
  Generator.generate_signal g "x" = Some (Generator.cmd_stop g).
Proof. reflexivity. Qed.

(** A transmission that the radio accepts: the buffer goes on air once,
    whole, and nothing else changes. *)
Lemma transmit_command_accepted (fuel : nat) buffer self :
  respects_size Radio -> always_accepts Radio ->
  (length buffer <= fuel)%nat ->
  exists self' calls,
    Controller._transmit_command fuel buffer self = (Py.Return tt, self') /\
    written self' = written self ++ calls /\
    on_air calls = buffer /\
    same_attributes self self'.
Proof.
  intros Hsize Hacc Hfuel. unfold Controller._transmit_command.
  destruct (transmit_loop_run Hsize fuel buffer self Hfuel)
    as (o & self' & calls & Hrun & Hw & Hat & Hfol & Hend).
  destruct Hend as [(-> & Hall & Htot)|(_ & Hna & _)]; [|contradiction].
  exists self', calls. repeat split; try assumption; try apply Hat.
  apply follows_on_air; assumption.
Qed.

(** The stop sequence over a radio that accepts: the job of record is
    dropped, the STOP buffer goes on air once, the buffer is rebuilt for
    [o], and a new job is installed 2 ms ahead. *)
Lemma transmit_stop_run (fuel : nat) self (j : nat) :
  _job self = Some j ->
  respects_size Radio -> always_accepts Radio ->
  (length (_stop_command self) <= fuel)%nat ->
  exists self' calls,
    Controller._transmit_stop_command fuel self = (Py.Return tt, self') /\
    Tk.pending (view self') =
      <[Tk.next_id (view self) := (2, Tk._transmit_current_command_cb)]>
        (delete j (Tk.pending (view self))) /\
    Tk.next_id (view self') = S (Tk.next_id (view self)) /\
    _job self' = Some (Tk.next_id (view self)) /\
    written self' = written self ++ calls /\
    on_air calls = _stop_command self /\
    _current_command self' =
      Some (Controller._modulate_signal
              (Controller.np_array (Py.list_mul 4 (Generator.cmd_off (generator self))))) /\
    _stop_command self' = _stop_command self /\
    generator self' = generator self.
Proof.
  intros Hj Hsize Hacc Hfuel.
  set (self1 := Controller.set_view (Tk.after_cancel j (view self)) self).
  destruct (transmit_command_accepted fuel (_stop_command self1) self1 Hsize Hacc Hfuel)
    as (self2 & calls & Hrun & Hw & Hair & Hv & Hg & Hs & Hc & Hjob).
  eexists _, calls. split.
  - unfold Controller._transmit_stop_command, Py.bind at 1.
    rewrite (cancel_job_run self j Hj). fold self1.
    unfold Py.bind at 1. unfold Py.bind at 1, Py.get. rewrite Hrun.
    unfold Py.bind at 1.
    rewrite (set_current_command_run "o" (Generator.cmd_off (generator self2)))
      by apply generate_signal_o.
    rewrite install_job_run. reflexivity.
  - simpl. rewrite Hv, Hg, Hs. simpl. repeat split; assumption.
Qed.

(** The stop sequence adds to the history the calls the radio answered,
    however it ends. *)
Lemma transmit_stop_answered (fuel : nat) self :
  exists calls : list write_call,
    written (Controller._transmit_stop_command fuel self).2 = written self ++ calls /\
    answered (radio self) calls (radio (Controller._transmit_stop_command fuel self).2).
Proof.
  destruct (Controller._transmit_stop_command fuel self) as [o self'] eqn:Hrun.
  simpl. unfold Controller._transmit_stop_command, Py.bind at 1 in Hrun.
  destruct (_job self) as [j|] eqn:Hj.
  - rewrite (cancel_job_run self j Hj) in Hrun.
    set (self1 := Controller.set_view (Tk.after_cancel j (view self)) self) in Hrun.
    unfold Py.bind at 1 in Hrun. unfold Py.bind at 1, Py.get in Hrun.
    unfold Controller._transmit_command in Hrun.
    destruct (transmit_loop_answered fuel (Py.len (_stop_command self1))
                (_stop_command self1) self1) as (calls & Hw & Hans).
    exists calls.
    destruct (Controller.transmit_loop fuel (Py.len (_stop_command self1))
                (_stop_command self1) self1) as [[[]|e|] self2];
      simpl in Hw, Hans.
    + unfold Py.bind at 1 in Hrun.
      rewrite (set_current_command_run "o" (Generator.cmd_off (generator self2)))
        in Hrun by apply generate_signal_o.
      rewrite install_job_run in Hrun. injection Hrun as <- <-. split; assumption.
    + injection Hrun as <- <-. split; assumption.
    + injection Hrun as <- <-. split; assumption.
  - rewrite (cancel_job_unset self Hj) in Hrun. injection Hrun as <- <-.
    exists []. simpl. rewrite app_nil_r. split; reflexivity.
Qed.

(** The stop sequence over a radio that refuses the STOP buffer at once:
    the job of record is dropped and the assertion's error raised; the
    current command stays, and no job is installed. *)
Lemma transmit_stop_refused (fuel : nat) self (j : nat) :
  _job self = Some j ->
  _stop_command self <> [] ->
  (writeStream (radio self) (_stop_command self) (Py.len (_stop_command self))).1 <= 0 ->
  exists self' (c : write_call),
    Controller._transmit_stop_command (S fuel) self = (Py.Raise Py.AssertionError, self') /\
    Tk.pending (view self') = delete j (Tk.pending (view self)) /\
    _job self' = Some j /\
    _current_command self' = _current_command self /\
    generator self' = generator self /\
    written self' = written self ++ [c] /\
    call_buffer c = _stop_command self /\
    call_ret c <= 0.
Proof.
  intros Hj Hne Hret.
  unfold Controller._transmit_stop_command, Py.bind at 1.
  rewrite (cancel_job_run self j Hj).
  set (self1 := Controller.set_view (Tk.after_cancel j (view self)) self).
  unfold Py.bind at 1. unfold Py.bind at 1, Py.get.
  unfold Controller._transmit_command.
  change (_stop_command self1) with (_stop_command self).
  cbn [Controller.transmit_loop].
  assert (Hlen : 0 < Py.len (_stop_command self)).
  { unfold Py.len. destruct (_stop_command self); [congruence | simpl; lia]. }
  destruct (Py.len (_stop_command self) =? 0) eqn:Hz; [lia|].
  rewrite Z.min_id. unfold Py.bind at 1, Controller.call_writeStream.
  change (radio self1) with (radio self).
  destruct (writeStream (radio self) (_stop_command self) (Py.len (_stop_command self)))
    as [ret r]. simpl in Hret.
  destruct (0 <? ret) eqn:Hpos; [lia|].
  eexists _, _. split; [reflexivity|]. repeat split; [exact Hj | exact Hret].
Qed.

(** A job that comes due over a radio that accepts: it stops being
    pending, the current buffer goes on air once, and a new job is
    installed 2 ms ahead. *)
Lemma fire_run (fuel : nat) self (id : nat) (ms : Z) buffer :
  Tk.pending (view self) !! id = Some (ms, Tk._transmit_current_command_cb) ->
  _current_command self = Some buffer ->
  respects_size Radio -> always_accepts Radio ->
  (length buffer <= fuel)%nat ->
  exists self' calls,
    Controller.fire fuel id self = (Py.Return tt, self') /\
    written self' = written self ++ calls /\
    on_air calls = buffer /\
    Tk.pending (view self') =
      <[Tk.next_id (view self) := (2, Tk._transmit_current_command_cb)]>
        (delete id (Tk.pending (view self))) /\
    _job self' = Some (Tk.next_id (view self)) /\
    _current_command self' = Some buffer.
Proof.
  intros Hid Hbuf Hsize Hacc Hfuel.
  set (self1 := Controller.set_view (Tk.after_cancel id (view self)) self).
  destruct (transmit_command_accepted fuel buffer self1 Hsize Hacc Hfuel)
    as (self2 & calls & Hrun & Hw & Hair & Hv & Hg & Hs & Hc & Hjob).
  eexists _, calls. split.
  - unfold Controller.fire, Py.bind at 1. unfold Py.get at 1. rewrite Hid.
    unfold Py.bind at 1. unfold Py.modify at 1. fold self1.
    unfold Controller._transmit_current_command, Py.bind at 1. unfold Py.get at 1.
    replace (_current_command self1) with (Some buffer) by (symmetry; exact Hbuf).
    unfold Py.bind at 1. rewrite Hrun. rewrite install_job_run. reflexivity.
  - simpl. rewrite Hv, Hc. simpl. repeat split; assumption.
Qed.

(** The keys of the alternate driving scheme; any other key is ignored on
    the way down. *)
Example key_map_lookups :
  Controller._key_map !! "w" = Some "n" /\
  Controller._key_map !! "e" = Some "ne" /\
  Controller._key_map !! "n" = None.
Proof. repeat split. Qed.

Lemma key_press_unmapped (key : string) self :
  Controller._key_map !! key = None ->
  Controller._key_press_handler key self = (Py.Return tt, self).
Proof. intros Hkey. unfold Controller._key_press_handler. rewrite Hkey. reflexivity. Qed.

End SchedulerFacts.

(** ** The session at the start of [mainloop] *)

Lemma main_started {Radio : Type} (r : Radio) :
  let g := (Generator.__init__ Controller._sample_rate) in
  main r =
  Py.Return
    {| view :=
         {| Tk.pending := {[ 0%nat := (15, Tk._transmit_current_command_cb) ]};
            Tk.next_id := 1 |};
       generator := g;
       radio := r;
       _stop_command :=
         Controller._modulate_signal (Controller.np_array (Generator.cmd_stop g));
       _current_command :=
         Some (Controller._modulate_signal
                 (Controller.np_array (Py.list_mul 4 (Generator.cmd_off g))));
       _job := Some 0%nat;
       written := [] |}.
Proof.
  intros g. unfold main, Controller.__init__. fold g. clearbody g.
  rewrite (generate_signal_x g).
  unfold Controller.start, Py.bind.
  rewrite (set_current_command_run "o" (Generator.cmd_off g)) by apply generate_signal_o.
  rewrite install_job_run. simpl. rewrite insert_empty. reflexivity.
Qed.

Lemma main_one_job {Radio : Type} (r : Radio) :
  exists self : RCController Radio, main r = Py.Return self /\ one_job_at_most self.
Proof.
  eexists. split; [apply main_started|].
  exists 0%nat. split; [reflexivity|].
  intros i Hi. simpl. apply lookup_singleton_ne. congruence.
Qed.

(** ** Two presses in a row *)

Section TwoPresses.
Context {Radio : Type}.
Implicit Types (self : RCController Radio).

#[local] Abbreviation buffer_of cmd :=
  (Controller._modulate_signal (Controller.np_array (Py.list_mul 4 cmd))).

Lemma press_n_then_e_run self (j : nat) :
  _job self = Some j ->
  exists self1 self2,
    Controller._button_press_handler "N" self = (Py.Return tt, self1) /\
    Controller._button_press_handler "E" self1 = (Py.Return tt, self2) /\
    Tk.pending (view self2) =
      <[S (Tk.next_id (view self)) := (15, Tk._transmit_current_command_cb)]>
        (delete (Tk.next_id (view self)) (delete j (Tk.pending (view self)))) /\
    _job self2 = Some (S (Tk.next_id (view self))) /\
    _current_command self2 = Some (buffer_of (Generator.cmd_right (generator self))) /\
    written self2 = written self /\
    Tk.next_id (view self2) = S (S (Tk.next_id (view self))).
Proof.
  intros Hj.
  destruct (button_press_run "N" (Generator.cmd_forward (generator self)) self j Hj eq_refl)
    as (self1 & Hrun1 & Hp1 & Hn1 & Hj1 & _ & Hg1 & _ & _ & Hw1).
  assert (Hcmd : Generator.generate_signal (generator self1) "E" =
                 Some (Generator.cmd_right (generator self))).
  { rewrite Hg1. reflexivity. }
  destruct (button_press_run "E" _ self1 _ Hj1 Hcmd)
    as (self2 & Hrun2 & Hp2 & Hn2 & Hj2 & Hc2 & _ & _ & _ & Hw2).
  exists self1, self2. split; [assumption|]. split; [assumption|].
  rewrite Hp2, Hj2, Hc2, Hw2, Hn2, Hn1, Hp1, Hw1, delete_insert_eq.
  repeat split.
Qed.

(** With samples in a bit period, the buffers of the right frame and of
    the forward-right frame differ: one has 144 bit periods to the frame,
    the other 108. *)
Lemma right_buffer_is_not_forward_right (g : RCControllerSignalGenerator) :
  Generator.samples_per_bit g <> 0%nat ->
  buffer_of (Generator.cmd_right g) <> buffer_of (Generator.cmd_forward_right g).
Proof.
  intros Hn Heq. apply (f_equal (fun l => Z.of_nat (length l))) in Heq.
  unfold Controller.np_array in Heq.
  rewrite !length_modulate_signal, !length_fmap in Heq.
  change (Py.len (Py.list_mul 4 (Generator.cmd_right g)) =
          Py.len (Py.list_mul 4 (Generator.cmd_forward_right g))) in Heq.
  rewrite !len_list_mul in Heq by lia.
  unfold Generator.cmd_right, Generator.cmd_forward_right in Heq.
  rewrite !len_frame in Heq by lia. lia.
Qed.

End TwoPresses.

(** C5, as the specification words it, fails.  From the start of the
    session, [press(N)] then [press(E)] with no job coming due in between
    leaves the buffer of the right frame (64 short bits) as the current
    command, and that buffer is not the buffer of the forward-right frame
    (46 short bits). *)
Lemma press_n_then_e_is_not_forward_right :
  let g := (Generator.__init__ Controller._sample_rate) in
  let buffer_of (cmd : list Q) :=
    Controller._modulate_signal (Controller.np_array (Py.list_mul 4 cmd)) in
  exists self0 self1 self2 : RCController unit,
    main tt = Py.Return self0 /\
    Controller._button_press_handler "N" self0 = (Py.Return tt, self1) /\
    Controller._button_press_handler "E" self1 = (Py.Return tt, self2) /\
    _current_command self2 = Some (buffer_of (Generator.cmd_right g)) /\
    _current_command self2 <> Some (buffer_of (Generator.cmd_forward_right g)).
Proof.
  intros g buffer_of.
  assert (Hn : Generator.samples_per_bit g <> 0%nat).
  { change (Generator.samples_per_bit (Generator.__init__ 8e6) <> 0%nat).
    rewrite samples_per_bit_8e6. discriminate. }
  pose proof (main_started tt) as Hmain. cbv zeta in Hmain. fold g in Hmain.
  clearbody g.
  match type of Hmain with _ = Py.Return ?s => set (self0 := s) in * end.
  destruct (press_n_then_e_run self0 0%nat eq_refl)
    as (self1 & self2 & Hrun1 & Hrun2 & _ & _ & Hc & _).
  exists self0, self1, self2.
  split; [exact Hmain|]. split; [exact Hrun1|]. split; [exact Hrun2|].
  split; [exact Hc|]. rewrite Hc. intros Heq. injection Heq as Heq.
  exact (right_buffer_is_not_forward_right g Hn Heq).
Qed.

(** C5, amended.  When no job is pending but the one [_job] names,
    [press(N)] then [press(E)] with no job coming due in between leaves
    exactly one job pending, 15 ms ahead, and the current command is the
    buffer of the right frame, four long bits and 64 short ones, tiled four
    times: the second press replaces the first.  When that job comes due
    over a radio that accepts, it is this buffer that goes on air. *)
Theorem second_press_replaces_first {Radio : Type} `{SoapySDR Radio}
    (self : RCController Radio) :
  one_job_at_most self ->
  let right :=
    Py.list_mul 4 (Generator.long (generator self)) ++
    Py.list_mul 64 (Generator.short (generator self)) in
  let buffer := Controller._modulate_signal (Controller.np_array (Py.list_mul 4 right)) in
  exists (self1 self2 : RCController Radio) (id : nat),
    Controller._button_press_handler "N" self = (Py.Return tt, self1) /\
    Controller._button_press_handler "E" self1 = (Py.Return tt, self2) /\
    Tk.pending (view self2) = {[ id := (15, Tk._transmit_current_command_cb) ]} /\
    _job self2 = Some id /\
    _current_command self2 = Some buffer /\
    (forall fuel : nat,
        respects_size Radio -> always_accepts Radio ->
        (length buffer <= fuel)%nat ->
        exists (self3 : RCController Radio) (calls : list write_call),
          Controller.fire fuel id self2 = (Py.Return tt, self3) /\
          written self3 = written self2 ++ calls /\
          on_air calls = buffer).
Proof.
  intros (j & Hj & Hothers) right buffer.
  destruct (press_n_then_e_run self j Hj)
    as (self1 & self2 & Hrun1 & Hrun2 & Hp & Hj2 & Hc & _).
  assert (Hempty : delete j (Tk.pending (view self)) = ∅).
  { apply map_eq. intros i. rewrite lookup_empty.
    destruct (decide (i = j)) as [->|Hne].
    - apply lookup_delete_eq.
    - rewrite lookup_delete_ne by congruence. apply Hothers, Hne. }
  rewrite Hempty, delete_empty, insert_empty in Hp.
  exists self1, self2, (S (Tk.next_id (view self))).
  split; [exact Hrun1|]. split; [exact Hrun2|]. split; [exact Hp|].
  split; [exact Hj2|]. split; [exact Hc|].
  intros fuel Hsize Hacc Hfuel.
  destruct (fire_run fuel self2 (S (Tk.next_id (view self))) 15 buffer)
    as (self3 & calls & Hfire & Hw & Hair & _); try assumption.
  - rewrite Hp. apply lookup_singleton_eq.
  - exists self3, calls. repeat split; assumption.
Qed.

(** For instance from the start of the session. *)
Lemma second_press_replaces_first_witness :
  exists (self0 self1 self2 : RCController unit) (id : nat),
    main tt = Py.Return self0 /\
    Controller._button_press_handler "N" self0 = (Py.Return tt, self1) /\
    Controller._button_press_handler "E" self1 = (Py.Return tt, self2) /\
    Tk.pending (view self2) = {[ id := (15, Tk._transmit_current_command_cb) ]} /\
    _job self2 = Some id.
Proof.
  destruct (main_one_job tt) as (self0 & Hmain & Hone).
  destruct (@second_press_replaces_first unit eager_radio self0 Hone)
    as (self1 & self2 & id & Hrun1 & Hrun2 & Hp & Hj & _).
  exists self0, self1, self2, id. repeat split; assumption.
Defined.

(** ** Commands outside the alphabet *)

(** C6, as the specification words it, fails: [q] holds none of the
    letters the encoder looks for, and the encoder returns [None] for it. *)
Lemma unrecognized_command_returns_none :
  Forall (fun c => ~ In c recognized_letters) (list_ascii_of_string "q") /\
  Generator.generate_signal (Generator.__init__ 8e6) "q" = None.
Proof.
  split; [|reflexivity].
  repeat constructor. simpl. intros Hin.
  repeat (destruct Hin as [Hin|Hin]; [discriminate Hin|]). exact Hin.
Qed.

(** C6, amended.  For a command that holds none of the letters [n], [s],
    [e], [w], [x], [o] in either case, [generate_signal] raises nothing and
    returns [None].  The failure comes in the caller:
    [_set_current_command] raises a [TypeError] on it and leaves the
    controller as it was. *)
Theorem unrecognized_command_is_none {Radio : Type}
    (command : string) (self : RCController Radio) :
  Forall (fun c => ~ In c recognized_letters) (list_ascii_of_string command) ->
  Generator.generate_signal (generator self) command = None /\
  Controller._set_current_command command self = (Py.Raise Py.TypeError, self).
Proof.
  intros Hnone.
  assert (Hno : forall c, In c recognized_letters ->
                          Py.str_in (String c EmptyString) command = false).
  { intros c Hc. apply str_in_char_false. intros Hin.
    rewrite Forall_forall in Hnone. apply (Hnone c).
    - apply list_elem_of_In. exact Hin.
    - exact Hc. }
  assert (Hgen : Generator.generate_signal (generator self) command = None).
  { unfold Generator.generate_signal.
    rewrite !Hno by (simpl; tauto). reflexivity. }
  split; [exact Hgen|]. apply set_current_command_none, Hgen.
Qed.

(** For instance [q], at the start of the session. *)
Lemma unrecognized_command_is_none_witness :
  exists self0 : RCController unit,
    main tt = Py.Return self0 /\
    Generator.generate_signal (generator self0) "q" = None /\
    Controller._set_current_command "q" self0 = (Py.Raise Py.TypeError, self0).
Proof.
  destruct (main_one_job tt) as (self0 & Hmain & _).
  exists self0. split; [exact Hmain|].
  apply (unrecognized_command_is_none "q" self0).
  repeat constructor. simpl. intros Hin.
  repeat (destruct Hin as [Hin|Hin]; [discriminate Hin|]). exact Hin.
Defined.

(** ** Tiled and untiled buffers *)

Lemma list_mul_4 {A : Type} (l : list A) : Py.list_mul 4 l = l ++ l ++ l ++ l.
Proof. unfold Py.list_mul. simpl. rewrite app_nil_r. reflexivity. Qed.

(** C9.  For each direction, under its button label and its key-map
    spelling, [_set_current_command] stores the modulated form of the
    encoded frame repeated four times end to end, a buffer four times as
    long as the frame.  [__init__] stores as the STOP buffer the modulated
    form of the encoded STOP frame as it is, a buffer as long as that
    frame. *)
Theorem moving_tiled_stop_untiled {Radio : Type} :
  (forall (self : RCController Radio) (d : direction),
      let frame :=
        Py.list_mul 4 (Generator.long (generator self)) ++
        Py.list_mul (short_pulses d) (Generator.short (generator self)) in
      let buffer :=
        Controller._modulate_signal
          (Controller.np_array (frame ++ frame ++ frame ++ frame)) in
      Generator.generate_signal (generator self) (button_label d) = Some frame /\
      Generator.generate_signal (generator self) (key_direction d) = Some frame /\
      Controller._set_current_command (button_label d) self =
        (Py.Return tt, Controller.set_current_command buffer self) /\
      Controller._set_current_command (key_direction d) self =
        (Py.Return tt, Controller.set_current_command buffer self) /\
      _current_command (Controller.set_current_command buffer self) = Some buffer /\
      Py.len buffer = 4 * Py.len frame) /\
  (forall r : Radio,
      let g := (Generator.__init__ Controller._sample_rate) in
      exists (rc : RCController Radio) (stop : list Q),
        Controller.__init__ r = Py.Return rc /\
        Generator.generate_signal g "x" = Some stop /\
        _stop_command rc = Controller._modulate_signal (Controller.np_array stop) /\
        Py.len (_stop_command rc) = Py.len stop).
Proof.
  split.
  - intros self d frame buffer.
    assert (Hb : Generator.generate_signal (generator self) (button_label d) = Some frame)
      by (destruct d; reflexivity).
    assert (Hk : Generator.generate_signal (generator self) (key_direction d) = Some frame)
      by (destruct d; reflexivity).
    split; [exact Hb|]. split; [exact Hk|].
    subst buffer. rewrite <- list_mul_4.
    split; [apply set_current_command_run, Hb|].
    split; [apply set_current_command_run, Hk|].
    split; [reflexivity|].
    unfold Py.len, Controller.np_array.
    rewrite length_modulate_signal, length_fmap, length_list_mul. lia.
  - intros r g. unfold Controller.__init__. fold g. clearbody g.
    rewrite (generate_signal_x g).
    eexists _, _. split; [reflexivity|]. split; [reflexivity|]. simpl.
    split; [reflexivity|].
    unfold Py.len, Controller.np_array.
    rewrite length_modulate_signal, length_fmap. reflexivity.
Qed.

(** ** Releases *)

(** C10, as the specification words it, fails: a release does not run
    the whole stop sequence from every state.  At the start of the session
    over the radio that refuses, [w] goes down and comes up: the release
    drops the job of record and then raises the assertion's error.  No
    sample of the STOP buffer was taken, no job is pending, and the current
    command is still the buffer of the forward frame, not the off
    waveform's. *)
Lemma refused_release_stops_short :
  exists self0 self1 self2 : RCController bool,
    main true = Py.Return self0 /\
    Controller._key_press_handler "w" self0 = (Py.Return tt, self1) /\
    @Controller._key_unpress_handler bool deaf_radio 1 "w" self1 =
      (Py.Raise Py.AssertionError, self2) /\
    Tk.pending (view self2) = ∅ /\
    on_air (written self2) = [] /\
    _current_command self2 =
      Some (tiled_buffer (Generator.cmd_forward (generator self2))) /\
    _current_command self2 <> Some (tiled_buffer (Generator.cmd_off (generator self2))).
Proof.
  pose proof (main_started true) as Hmain. cbv zeta in Hmain.
  set (g := Generator.__init__ Controller._sample_rate) in Hmain.
  assert (Hn : Generator.samples_per_bit g = 4000%nat) by exact samples_per_bit_8e6.
  clearbody g.
  match type of Hmain with _ = Py.Return ?s => set (self0 := s) in * end.
  destruct (button_press_run "n" (Generator.cmd_forward g) self0 0%nat eq_refl eq_refl)
    as (self1 & Hpress & Hp1 & _ & Hj1 & Hc1 & Hg1 & Hs1 & Hr1 & Hw1).
  destruct (@transmit_stop_refused bool deaf_radio 0 self1 1%nat Hj1)
    as (self2 & c & Hrel & Hp2 & _ & Hc2 & Hg2 & Hw2 & _ & Hret).
  { rewrite Hs1. intros Hnil. apply (f_equal length) in Hnil. revert Hnil.
    change (_stop_command self0)
      with (Controller._modulate_signal (Controller.np_array (Generator.cmd_stop g))).
    unfold Controller.np_array. rewrite length_modulate_signal, length_fmap.
    pose proof (len_cmd_stop g) as Hlen. unfold Py.len in Hlen.
    rewrite Hn in Hlen. simpl length. lia. }
  { rewrite Hr1. simpl. lia. }
  exists self0, self1, self2.
  split; [exact Hmain|]. split; [exact Hpress|]. split; [exact Hrel|].
  rewrite Hc2, Hc1, Hg2, Hg1. change (generator self0) with g.
  split; [|split; [|split]].
  - rewrite Hp2, Hp1.
    change (Tk.next_id (view self0)) with 1%nat.
    change (Tk.pending (view self0))
      with ({[ 0%nat := (15, Tk._transmit_current_command_cb) ]} : gmap nat (Z * Tk.callback)).
    rewrite delete_insert_eq, delete_singleton_eq. apply delete_empty.
  - rewrite Hw2, Hw1. change (written self0) with (@nil write_call).
    unfold on_air, accepted. simpl.
    replace (Z.to_nat (call_ret c)) with 0%nat by lia. reflexivity.
  - reflexivity.
  - intros Heq. injection Heq as Heq. apply (f_equal Py.len) in Heq.
    fold (tiled_buffer (Generator.cmd_forward g)) in Heq.
    fold (tiled_buffer (Generator.cmd_off g)) in Heq.
    rewrite !len_tiled_buffer, len_cmd_off in Heq.
    unfold Generator.cmd_forward in Heq. rewrite len_frame in Heq by lia.
    rewrite Hn in Heq. lia.
Qed.

(** C10, amended.  [_key_unpress_handler] does not look at the key:
    whatever was released, it runs [_transmit_stop_command].  From any
    state in which [_job] is set, over a radio that at every call takes at
    least one sample and reports no more than it was offered, this drops
    the job of record, puts the STOP buffer on air exactly once, rebuilds
    the current command as the modulated off waveform, and installs a new
    job 2 ms ahead.  The calls are the radio's own: each count is what
    [writeStream] answered, and the radio is left as the last call left
    it.  The button's release handler does the same. *)
Theorem release_runs_stop_sequence {Radio : Type} `{SoapySDR Radio}
    (fuel : nat) (key : string) (self : RCController Radio) (j : nat) :
  _job self = Some j ->
  respects_size Radio -> always_accepts Radio ->
  (length (_stop_command self) <= fuel)%nat ->
  Controller._key_unpress_handler fuel key self =
    Controller._transmit_stop_command fuel self /\
  Controller._button_unpress_handler fuel key self =
    Controller._transmit_stop_command fuel self /\
  exists (self' : RCController Radio) (calls : list write_call),
    Controller._key_unpress_handler fuel key self = (Py.Return tt, self') /\
    Tk.pending (view self') =
      <[Tk.next_id (view self) := (2, Tk._transmit_current_command_cb)]>
        (delete j (Tk.pending (view self))) /\
    _job self' = Some (Tk.next_id (view self)) /\
    written self' = written self ++ calls /\
    answered (radio self) calls (radio self') /\
    on_air calls = _stop_command self /\
    _current_command self' =
      Some (Controller._modulate_signal
              (Controller.np_array
                 (Py.list_mul 4 (Generator.cmd_off (generator self))))) /\
    _stop_command self' = _stop_command self.
Proof.
  intros Hj Hsize Hacc Hfuel.
  split; [reflexivity|]. split; [reflexivity|].
  destruct (transmit_stop_run fuel self j Hj Hsize Hacc Hfuel)
    as (self' & calls & Hrun & Hp & _ & Hj' & Hw & Hair & Hc & Hs & _).
  exists self', calls. unfold Controller._key_unpress_handler.
  split; [exact Hrun|]. split; [exact Hp|]. split; [exact Hj'|].
  split; [exact Hw|]. split; [|repeat split; assumption].
  destruct (transmit_stop_answered fuel self) as (calls' & Hw' & Hans).
  rewrite Hrun in Hw', Hans. simpl in Hw', Hans.
  rewrite Hw in Hw'. apply app_inv_head in Hw'. rewrite Hw'. exact Hans.
Qed.

(** For instance the release of [p], a key outside the key map, at the
    start of the session, over the radio that takes one, two or three
    samples at a call. *)
Lemma release_runs_stop_sequence_witness :
  exists (self0 self' : RCController nat),
    main 0%nat = Py.Return self0 /\
    @Controller._key_unpress_handler nat trickle_radio
      (length (_stop_command self0)) "p" self0 = (Py.Return tt, self') /\
    Tk.pending (view self') = {[ 1%nat := (2, Tk._transmit_current_command_cb) ]} /\
    on_air (written self') = _stop_command self0 /\
    @answered nat trickle_radio 0%nat (written self') (radio self').
Proof.
  pose proof (main_started 0%nat) as Hmain. cbv zeta in Hmain.
  match type of Hmain with _ = Py.Return ?s => set (self0 := s) in * end.
  destruct (@release_runs_stop_sequence nat trickle_radio
              (length (_stop_command self0)) "p" self0 0%nat)
    as (_ & _ & self' & calls & Hrun & Hp & _ & Hw & Hans & Hair & _).
  - reflexivity.
  - exact trickle_radio_respects_size.
  - exact trickle_radio_always_accepts.
  - apply le_n.
  - exists self0, self'. split; [exact Hmain|]. split; [exact Hrun|].
    split; [|split].
    + rewrite Hp.
      change (Tk.next_id (view self0)) with 1%nat.
      change (Tk.pending (view self0))
        with ({[ 0%nat := (15, Tk._transmit_current_command_cb) ]} : gmap nat (Z * Tk.callback)).
      rewrite delete_singleton_eq. apply insert_empty.
    + rewrite Hw. exact Hair.
    + rewrite Hw. exact Hans.
Defined.

(** ** At most one job is ever pending *)

Section MethodLogic.
Context {S : Type} (inv : S -> Prop).

Lemma ensures_ret {A : Type} (P : S -> Prop) (a : A) : ensures inv P (Py.ret a) P.
Proof. intros s o s' HP Hrun. injection Hrun as <- <-. exact HP. Qed.

Lemma ensures_raise {A : Type} (P Q : S -> Prop) (e : Py.exn) :
  (forall s, P s -> inv s) -> ensures inv P (@Py.raise S A e) Q.
Proof. intros HPinv s o s' HP Hrun. injection Hrun as <- <-. apply HPinv, HP. Qed.

Lemma ensures_modify (P Q : S -> Prop) (f : S -> S) :
  (forall s, P s -> Q (f s)) -> ensures inv P (Py.modify f) Q.
Proof. intros HPQ s o s' HP Hrun. injection Hrun as <- <-. apply HPQ, HP. Qed.

Lemma ensures_bind {A B : Type} (P Q R : S -> Prop)
    (m : Py.method S A) (k : A -> Py.method S B) :
  ensures inv P m Q -> (forall a, ensures inv Q (k a) R) ->
  ensures inv P (Py.bind m k) R.
Proof.
  intros Hm Hk s o s' HP Hrun. unfold Py.bind in Hrun.
  destruct (m s) as [[a|e|] s1] eqn:Hms; specialize (Hm s _ s1 HP Hms); simpl in Hm.
  - exact (Hk a s1 o s' Hm Hrun).
  - injection Hrun as <- <-. exact Hm.
  - injection Hrun as <- <-. exact Hm.
Qed.

(** Reading the object first: what follows may depend on what was read. *)
Lemma ensures_get {B : Type} (P R : S -> Prop) (k : S -> Py.method S B) :
  (forall s0, P s0 -> ensures inv (fun s => s = s0) (k s0) R) ->
  ensures inv P (Py.bind Py.get k) R.
Proof.
  intros Hk s o s' HP Hrun. unfold Py.bind, Py.get in Hrun.
  exact (Hk s HP s o s' eq_refl Hrun).
Qed.

Lemma ensures_weaken {A : Type} (P P' Q Q' : S -> Prop) (m : Py.method S A) :
  (forall s, P' s -> P s) -> (forall s, Q s -> Q' s) ->
  ensures inv P m Q -> ensures inv P' m Q'.
Proof.
  intros HP HQ Hm s o s' HP' Hrun. specialize (Hm s o s' (HP s HP') Hrun).
  destruct o; auto.
Qed.

End MethodLogic.

Section OneJob.
Context {Radio : Type} `{SoapySDR Radio}.
Implicit Types (self : RCController Radio).

#[local] Abbreviation keeps P m Q := (ensures (@one_job_at_most Radio) P m Q).

Lemma no_job_one_job self : no_job_pending self -> one_job_at_most self.
Proof.
  intros [[j Hj] Hp]. exists j. split; [exact Hj|].
  intros i _. rewrite Hp. apply lookup_empty.
Qed.

(** Both conditions read the timer jobs and [_job] only. *)
Lemma one_job_same_jobs self self' :
  view self' = view self -> _job self' = _job self ->
  one_job_at_most self -> one_job_at_most self'.
Proof. intros Hv Hj. unfold one_job_at_most. rewrite Hv, Hj. trivial. Qed.

Lemma no_job_same_jobs self self' :
  view self' = view self -> _job self' = _job self ->
  no_job_pending self -> no_job_pending self'.
Proof. intros Hv Hj. unfold no_job_pending. rewrite Hv, Hj. trivial. Qed.

Lemma transmit_loop_attributes (fuel : nat) :
  forall (numSampsTotal : Z) (buffer : list C) self,
    same_attributes self (Controller.transmit_loop fuel numSampsTotal buffer self).2.
Proof.
  induction fuel as [|fuel IH]; intros numSampsTotal buffer self; simpl;
    destruct (numSampsTotal =? 0); try apply same_attributes_refl.
  unfold Py.bind.
  destruct (call_writeStream_spec buffer (Z.min (Py.len buffer) numSampsTotal) self)
    as (ret & self1 & -> & _ & _ & Hat).
  destruct (0 <? ret).
  - eapply same_attributes_trans; [exact Hat | apply IH].
  - exact Hat.
Qed.

Lemma keeps_cancel_job :
  keeps one_job_at_most Controller.cancel_job no_job_pending.
Proof.
  intros self o self' (j & Hj & Hothers) Hrun.
  rewrite (cancel_job_run self j Hj) in Hrun. injection Hrun as <- <-.
  split; [exists j; exact Hj|]. simpl.
  apply map_eq. intros i. rewrite lookup_empty.
  destruct (decide (i = j)) as [->|Hne].
  - apply lookup_delete_eq.
  - rewrite lookup_delete_ne by congruence. apply Hothers, Hne.
Qed.

Lemma keeps_install_job (ms : Z) :
  keeps no_job_pending (Controller.install_job ms) one_job_at_most.
Proof.
  intros self o self' [_ Hp] Hrun. rewrite install_job_run in Hrun.
  injection Hrun as <- <-. exists (Tk.next_id (view self)).
  split; [reflexivity|]. intros i Hi. simpl.
  rewrite Hp, lookup_insert_ne by congruence. apply lookup_empty.
Qed.

Lemma keeps_set_current_command (direction : string) :
  keeps no_job_pending (Controller._set_current_command direction) no_job_pending.
Proof.
  intros self o self' Hno Hrun.
  destruct (Generator.generate_signal (generator self) direction) as [cmd|] eqn:Hcmd.
  - rewrite (set_current_command_run direction cmd self Hcmd) in Hrun.
    injection Hrun as <- <-. exact Hno.
  - rewrite (set_current_command_none direction self Hcmd) in Hrun.
    injection Hrun as <- <-. apply no_job_one_job, Hno.
Qed.

Lemma keeps_transmit_command (fuel : nat) (buffer : list C) :
  keeps no_job_pending (Controller._transmit_command fuel buffer) no_job_pending.
Proof.
  intros self o self' Hno Hrun.
  pose proof (transmit_loop_attributes fuel (Py.len buffer) buffer self) as Hat.
  unfold Controller._transmit_command in Hrun. rewrite Hrun in Hat.
  destruct Hat as (Hv & _ & _ & _ & Hj). simpl in Hv, Hj.
  pose proof (no_job_same_jobs self self' Hv Hj Hno) as Hno'.
  destruct o; [exact Hno' | apply no_job_one_job, Hno' | apply no_job_one_job, Hno'].
Qed.

Lemma keeps_press (direction : string) :
  keeps one_job_at_most
    (Controller.cancel_job ;;;
     Controller._set_current_command direction ;;;
     Controller.install_job Controller._after_delay_ms)
    one_job_at_most.
Proof.
  eapply ensures_bind; [apply keeps_cancel_job | intros _].
  eapply ensures_bind; [apply keeps_set_current_command | intros _].
  apply keeps_install_job.
Qed.

Lemma keeps_transmit_stop_command (fuel : nat) :
  keeps one_job_at_most (Controller._transmit_stop_command fuel) one_job_at_most.
Proof.
  unfold Controller._transmit_stop_command.
  eapply ensures_bind; [apply keeps_cancel_job | intros _].
  eapply ensures_bind with (Q := no_job_pending).
  - apply ensures_get. intros self0 Hno.
    eapply ensures_weaken with (P := no_job_pending) (Q := no_job_pending);
      [intros s ->; exact Hno | auto | apply keeps_transmit_command].
  - intros _. eapply ensures_bind; [apply keeps_set_current_command | intros _].
    apply keeps_install_job.
Qed.

Lemma keeps_transmit_current_command (fuel : nat) :
  keeps no_job_pending (Controller._transmit_current_command fuel) one_job_at_most.
Proof.
  unfold Controller._transmit_current_command.
  apply ensures_get. intros self0 Hno.
  eapply ensures_weaken with (P := no_job_pending) (Q := one_job_at_most);
    [intros s ->; exact Hno | auto |].
  destruct (_current_command self0) as [buffer|].
  - eapply ensures_bind; [apply keeps_transmit_command | intros _].
    apply keeps_install_job.
  - apply ensures_raise. apply no_job_one_job.
Qed.

Lemma keeps_fire (fuel : nat) (id : nat) :
  keeps one_job_at_most (Controller.fire fuel id) one_job_at_most.
Proof.
  unfold Controller.fire. apply ensures_get. intros self0 Hone.
  destruct (Tk.pending (view self0) !! id) as [[ms []]|] eqn:Hid.
  - eapply ensures_bind with (Q := no_job_pending).
    + apply ensures_modify. intros s ->.
      destruct Hone as (j & Hj & Hothers).
      destruct (decide (id = j)) as [->|Hne];
        [|rewrite (Hothers id Hne) in Hid; discriminate].
      split; [exists j; exact Hj|]. simpl.
      apply map_eq. intros i. rewrite lookup_empty.
      destruct (decide (i = j)) as [->|Hne].
      * apply lookup_delete_eq.
      * rewrite lookup_delete_ne by congruence. apply Hothers, Hne.
    + intros _. apply keeps_transmit_current_command.
  - intros s o s' -> Hrun. injection Hrun as <- <-. exact Hone.
Qed.

(** Whatever the event and however its handler ends, returning, raising
    or still writing, no job is pending afterwards but the one [_job]
    names. *)
Lemma dispatch_keeps_one_job (fuel : nat) (ev : event) self
    (o : Py.outcome unit) self' :
  one_job_at_most self -> dispatch fuel ev self = (o, self') ->
  one_job_at_most self'.
Proof.
  intros Hone Hrun.
  assert (Hk : keeps one_job_at_most (dispatch fuel ev) one_job_at_most).
  { destruct ev as [char|char|d|d|id]; simpl.
    - unfold Controller._key_press_handler.
      destruct (Controller._key_map !! char); [apply keeps_press | apply ensures_ret].
    - apply keeps_transmit_stop_command.
    - apply keeps_press.
    - apply keeps_transmit_stop_command.
    - apply keeps_fire. }
  specialize (Hk self o self' Hone Hrun). destruct o; exact Hk.
Qed.

(** X12.  From the start of the session on, whatever events arrive and
    however their handlers end, no timer job is pending but, at most, the
    one [_job] names: retransmissions never pile up. *)
Lemma mainloop_one_job (fuel : nat) (events : list event) (r : Radio) :
  exists self0,
    main r = Py.Return self0 /\ one_job_at_most (mainloop fuel events self0).
Proof.
  destruct (main_one_job r) as (self0 & Hmain & Hone).
  exists self0. split; [exact Hmain|]. clear Hmain.
  revert self0 Hone. induction events as [|ev events IH]; intros self Hone; simpl.
  - exact Hone.
  - destruct (dispatch fuel ev self) as [o self'] eqn:Hrun.
    pose proof (dispatch_keeps_one_job fuel ev self o self' Hone Hrun) as Hone'.
    destruct o; [apply IH, Hone' | apply IH, Hone' | exact Hone'].
Qed.

End OneJob.

(** ** A radio that reports more than it was offered *)

Section Greedy.

#[local] Abbreviation greedy_loop := (@Controller.transmit_loop unit greedy_radio).

Lemma greedy_loop_below_zero (fuel : nat) :
  forall (numSampsTotal : Z) (buffer : list C) (self : RCController unit),
    numSampsTotal < 0 ->
    (greedy_loop fuel numSampsTotal buffer self).1 = Py.Running.
Proof.
  induction fuel as [|fuel IH]; intros numSampsTotal buffer self Hneg; simpl;
    destruct (Z.eqb_spec numSampsTotal 0) as [Hz|_]; try lia; [reflexivity|].
  unfold Py.bind, Controller.call_writeStream. simpl. apply IH. lia.
Qed.

(** The loop leaves only when the count of samples left is exactly zero.
    Offered six samples, this radio reports four taken, then four again of
    the two that were left: the count goes to minus two and the loop does
    not end, whatever the fuel.  [respects_size] rules such a radio out. *)
Remark greedy_radio_keeps_loop_running (fuel : nat) (self : RCController unit) :
  let buffer : list C := [(1, 0); (0, 1); (-1, 0); (0, -1); (1, 0); (0, 1)]%R in
  ~ @respects_size unit greedy_radio /\
  (@Controller._transmit_command unit greedy_radio fuel buffer self).1 = Py.Running.
Proof.
  intros buffer. split.
  - intros Hsize. specialize (Hsize tt [] 1). simpl in Hsize. lia.
  - unfold Controller._transmit_command.
    destruct fuel as [|[|fuel]]; try reflexivity.
    simpl. unfold Py.bind, Controller.call_writeStream. simpl.
    apply greedy_loop_below_zero. reflexivity.
Qed.

End Greedy.

(** * More of the encoder *)

Section EncoderLetters.
Variable self : RCControllerSignalGenerator.

(** One test of [generate_signal]: the letter in either case. *)
#[local] Abbreviation test l u command :=
  (Py.str_in (String l EmptyString) command || Py.str_in (String u EmptyString) command).

Lemma test_holds (l u : ascii) (command : string) :
  test l u command = true <-> holds l u command.
Proof. rewrite orb_true_iff, !str_in_char. reflexivity. Qed.

Lemma test_not_holds (l u : ascii) (command : string) :
  test l u command = false <-> ~ holds l u command.
Proof.
  pose proof (test_holds l u command) as Hiff.
  destruct (test l u command); split; intros Hn; try reflexivity; try discriminate.
  - exfalso. apply Hn, Hiff. reflexivity.
  - intros Hh. apply Hiff in Hh. discriminate.
Qed.

Lemma tests_agree (l u : ascii) (c1 c2 : string) :
  (holds l u c1 <-> holds l u c2) -> test l u c1 = test l u c2.
Proof.
  intros Hiff. apply eq_true_iff_eq.
  split; intros Ht; apply test_holds; apply Hiff; apply test_holds; exact Ht.
Qed.

Lemma list_ascii_of_string_append (c1 c2 : string) :
  list_ascii_of_string (c1 ++ c2) = list_ascii_of_string c1 ++ list_ascii_of_string c2.
Proof. induction c1 as [|a c1 IH]; simpl; [reflexivity | rewrite IH; reflexivity]. Qed.

Lemma holds_append (l u : ascii) (c1 c2 : string) :
  holds l u (c1 ++ c2) <-> holds l u c1 \/ holds l u c2.
Proof.
  unfold holds. rewrite list_ascii_of_string_append, !in_app_iff. split.
  - intros [[Hl|Hl]|[Hu|Hu]]; auto.
  - intros [[Hl|Hu]|[Hl|Hu]]; auto.
Qed.

Lemma test_append (l u : ascii) (c1 c2 : string) :
  test l u (c1 ++ c2) = test l u c1 || test l u c2.
Proof.
  apply eq_true_iff_eq. split.
  - intros Ht. apply test_holds, holds_append in Ht. apply orb_true_iff.
    destruct Ht as [Ht|Ht]; [left | right]; apply test_holds, Ht.
  - intros Ht. apply orb_true_iff in Ht. apply test_holds, holds_append.
    destruct Ht as [Ht|Ht]; [left | right]; apply test_holds, Ht.
Qed.

Lemma holds_by_tests (l u : ascii) (c1 c2 : string) :
  test l u c1 = test l u c2 -> (holds l u c1 <-> holds l u c2).
Proof.
  intros Heq. split; intros Hh; apply test_holds; apply test_holds in Hh; congruence.
Qed.

(** X1.  [generate_signal] reads nothing of a command but which of the
    six letters it holds, each in either case: two commands that hold the
    same letters get the same answer, whatever the order, the case, the
    repetitions and the other characters. *)
Theorem generate_signal_reads_letters_only (c1 c2 : string) :
  Forall (fun p : ascii * ascii => holds p.1 p.2 c1 <-> holds p.1 p.2 c2)
    letter_classes ->
  Generator.generate_signal self c1 = Generator.generate_signal self c2.
Proof.
  unfold letter_classes. rewrite !Forall_cons. simpl.
  intros (Hn & Hs & He & Hw & Hx & Ho & _).
  unfold Generator.generate_signal.
  rewrite (tests_agree _ _ c1 c2 Hn), (tests_agree _ _ c1 c2 Hs),
    (tests_agree _ _ c1 c2 He), (tests_agree _ _ c1 c2 Hw),
    (tests_agree _ _ c1 c2 Hx), (tests_agree _ _ c1 c2 Ho).
  reflexivity.
Qed.

(** X2.  [generate_signal] returns a waveform exactly for the commands that
    hold at least one of the six letters; for all others, and only for
    them, it returns [None]. *)
Theorem generate_signal_some_iff_letter (command : string) :
  is_Some (Generator.generate_signal self command) <->
  Exists (fun p : ascii * ascii => holds p.1 p.2 command) letter_classes.
Proof.
  unfold letter_classes. rewrite !Exists_cons, Exists_nil. simpl.
  rewrite <- !test_holds. unfold Generator.generate_signal.
  destruct (test "n" "N" command), (test "s" "S" command), (test "e" "E" command),
    (test "w" "W" command), (test "x" "X" command), (test "o" "O" command);
    split; intros Hyp;
    try (eexists; reflexivity); try tauto;
    try (destruct Hyp as [? Hyp]; discriminate Hyp);
    repeat (destruct Hyp as [Hyp|Hyp]; try discriminate Hyp); try contradiction.
Qed.

(** X3.  Which letter wins.  Text appended to a command changes nothing
    when the command already holds [n] and the text holds no [e] and no
    [w]; or holds [e] and the text no [n] and no [s]; or holds [s] and the
    text none of [n], [e], [w]; or holds [w] and the text none of [n], [s],
    [e]; or holds [x] and the text none of [n], [s], [e], [w].  So [s], [x]
    and [o] are ignored beside [n], [w] beside [e], [x] and [o] beside any
    direction letter, and [o] beside [x]. *)
Theorem dominated_letters_change_nothing (command text : string) :
  let same :=
    Generator.generate_signal self (command ++ text) =
    Generator.generate_signal self command in
  (holds "n" "N" command ->
   ~ holds "e" "E" text -> ~ holds "w" "W" text -> same) /\
  (holds "e" "E" command ->
   ~ holds "n" "N" text -> ~ holds "s" "S" text -> same) /\
  (holds "s" "S" command ->
   ~ holds "n" "N" text -> ~ holds "e" "E" text -> ~ holds "w" "W" text -> same) /\
  (holds "w" "W" command ->
   ~ holds "n" "N" text -> ~ holds "s" "S" text -> ~ holds "e" "E" text -> same) /\
  (holds "x" "X" command ->
   ~ holds "n" "N" text -> ~ holds "s" "S" text -> ~ holds "e" "E" text ->
   ~ holds "w" "W" text -> same).
Proof.
  intros same. subst same. unfold Generator.generate_signal.
  rewrite !test_append.
  split; [|split; [|split; [|split]]].
  - intros Hh He Hw. apply test_holds in Hh.
    apply test_not_holds in He. apply test_not_holds in Hw.
    rewrite Hh, He, Hw, ?orb_false_r. cbn [orb]. reflexivity.
  - intros Hh Hn Hs. apply test_holds in Hh.
    apply test_not_holds in Hn. apply test_not_holds in Hs.
    rewrite Hh, Hn, Hs, ?orb_false_r. cbn [orb]. reflexivity.
  - intros Hh Hn He Hw. apply test_holds in Hh.
    apply test_not_holds in Hn. apply test_not_holds in He. apply test_not_holds in Hw.
    rewrite Hh, Hn, He, Hw, ?orb_false_r. cbn [orb]. reflexivity.
  - intros Hh Hn Hs He. apply test_holds in Hh.
    apply test_not_holds in Hn. apply test_not_holds in Hs. apply test_not_holds in He.
    rewrite Hh, Hn, Hs, He, ?orb_false_r. cbn [orb]. reflexivity.
  - intros Hh Hn Hs He Hw. apply test_holds in Hh.
    apply test_not_holds in Hn. apply test_not_holds in Hs.
    apply test_not_holds in He. apply test_not_holds in Hw.
    rewrite Hh, Hn, Hs, He, Hw, ?orb_false_r. cbn [orb]. reflexivity.
Qed.

End EncoderLetters.

(** For instance [Ne] and [e.n.e]; the full stops are no letters of the
    six. *)
Lemma generate_signal_reads_letters_only_witness :
  Generator.generate_signal (Generator.__init__ 8e6) "Ne" =
  Generator.generate_signal (Generator.__init__ 8e6) "e.n.e".
Proof.
  apply generate_signal_reads_letters_only. unfold letter_classes.
  repeat (apply Forall_cons; split; [apply holds_by_tests; reflexivity|]).
  apply Forall_nil. exact I.
Defined.

(** For instance [n] with [sxo] after it, and [x] with [o]. *)
Lemma dominated_letters_change_nothing_witness :
  Generator.generate_signal (Generator.__init__ 8e6) "nsxo" =
  Generator.generate_signal (Generator.__init__ 8e6) "n" /\
  Generator.generate_signal (Generator.__init__ 8e6) "xo" =
  Generator.generate_signal (Generator.__init__ 8e6) "x".
Proof.
  split.
  - destruct (dominated_letters_change_nothing (Generator.__init__ 8e6) "n" "sxo")
      as (Hn & _).
    apply Hn; [apply test_holds | apply test_not_holds | apply test_not_holds];
      reflexivity.
  - destruct (dominated_letters_change_nothing (Generator.__init__ 8e6) "x" "o")
      as (_ & _ & _ & _ & Hx).
    apply Hx; [apply test_holds | apply test_not_holds | apply test_not_holds
              | apply test_not_holds | apply test_not_holds]; reflexivity.
Defined.

(** ** The shape of the waveforms *)

Section EncoderShape.
Variable self : RCControllerSignalGenerator.

#[local] Abbreviation n := (Generator.samples_per_bit self).

Lemma Forall_list_mul {A : Type} (P : A -> Prop) (k : Z) (l : list A) :
  Forall P l -> Forall P (Py.list_mul k l).
Proof.
  intros Hl. unfold Py.list_mul. apply Forall_concat, Forall_replicate, Hl.
Qed.

Lemma two_level_long : Forall two_level (Generator.long self).
Proof.
  rewrite long_shape.
  apply Forall_app; split; apply Forall_replicate; [right | left]; reflexivity.
Qed.

Lemma two_level_short : Forall two_level (Generator.short self).
Proof.
  rewrite short_shape.
  apply Forall_app; split; apply Forall_replicate; [right | left]; reflexivity.
Qed.

Lemma two_level_frame (count : Z) :
  Forall two_level
    (Py.list_mul 4 (Generator.long self) ++ Py.list_mul count (Generator.short self)).
Proof.
  apply Forall_app; split; apply Forall_list_mul;
    [apply two_level_long | apply two_level_short].
Qed.

Lemma two_level_waveforms : Forall (Forall two_level) (waveforms self).
Proof.
  unfold waveforms. repeat (apply Forall_cons; split); try apply two_level_frame.
  - apply Forall_list_mul, two_level_frame.
  - rewrite cmd_off_replicate. apply Forall_replicate. left. reflexivity.
  - apply Forall_nil. exact I.
Qed.

(** A list that starts high, and one that ends low. *)
Lemma head_app_l {A : Type} (x : A) (l r : list A) :
  head l = Some x -> head (l ++ r) = Some x.
Proof. destruct l; [discriminate | trivial]. Qed.

Lemma last_app_r {A : Type} (x : A) (l r : list A) :
  last r = Some x -> last (l ++ r) = Some x.
Proof.
  intros Hr. destruct r as [|y r]; [discriminate|].
  rewrite last_app, Hr. reflexivity.
Qed.

Lemma head_list_mul {A : Type} (x : A) (k : Z) (l : list A) :
  0 < k -> head l = Some x -> head (Py.list_mul k l) = Some x.
Proof.
  intros Hk Hl. unfold Py.list_mul.
  destruct (Z.to_nat k) as [|m] eqn:Hm; [lia|]. simpl. apply head_app_l, Hl.
Qed.

Lemma last_list_mul {A : Type} (x : A) (k : Z) (l : list A) :
  0 < k -> last l = Some x -> last (Py.list_mul k l) = Some x.
Proof.
  intros Hk Hl. unfold Py.list_mul.
  destruct (Z.to_nat k) as [|m] eqn:Hm; [lia|]. clear Hm.
  induction m as [|m IH]; simpl.
  - rewrite app_nil_r. exact Hl.
  - apply last_app_r. exact IH.
Qed.

Lemma head_long : n <> 0%nat -> head (Generator.long self) = Some 0.95%Q.
Proof.
  intros Hn. rewrite long_shape. destruct n as [|m]; [congruence|]. reflexivity.
Qed.

Lemma head_short : n <> 0%nat -> head (Generator.short self) = Some 0.95%Q.
Proof.
  intros Hn. rewrite short_shape. destruct n as [|m]; [congruence|]. reflexivity.
Qed.

Lemma last_short : n <> 0%nat -> last (Generator.short self) = Some 0%Q.
Proof.
  intros Hn. rewrite short_shape. destruct n as [|m]; [congruence|].
  apply last_app_r. rewrite replicate_S_end. apply last_snoc.
Qed.

Lemma frame_starts_high_ends_low (count : Z) :
  n <> 0%nat -> 0 < count ->
  let frame :=
    Py.list_mul 4 (Generator.long self) ++ Py.list_mul count (Generator.short self) in
  head frame = Some 0.95%Q /\ last frame = Some 0%Q.
Proof.
  intros Hn Hc frame. subst frame. split.
  - apply head_app_l, head_list_mul; [lia | apply head_long, Hn].
  - apply last_app_r, last_list_mul; [lia | apply last_short, Hn].
Qed.

End EncoderShape.

(** X4.  Every waveform [generate_signal] returns is made of the two levels
    0 and 0.95 only.  When a bit period has at least one sample, every
    waveform but the off waveform starts high and ends low: the carrier
    comes on with the first sample of a frame and is off at its last. *)
Theorem waveform_levels_and_edges
    (self : RCControllerSignalGenerator) (command : string) (w : list Q) :
  Generator.generate_signal self command = Some w ->
  Forall two_level w /\
  (Generator.samples_per_bit self <> 0%nat ->
   w = Generator.cmd_off self \/ (head w = Some 0.95%Q /\ last w = Some 0%Q)).
Proof.
  intros Hw. apply generate_signal_cases in Hw. split.
  - pose proof (two_level_waveforms self) as Hall.
    rewrite Forall_forall in Hall. apply Hall. unfold waveforms.
    apply list_elem_of_In. simpl in *. tauto.
  - intros Hn. simpl in Hw.
    destruct Hw as [<-|[<-|[<-|[<-|[<-|[<-|[<-|[<-|[<-|[<-|[]]]]]]]]]]].
    1-8: right;
      unfold Generator.cmd_forward_right, Generator.cmd_forward_left,
        Generator.cmd_forward, Generator.cmd_reverse_right,
        Generator.cmd_reverse_left, Generator.cmd_reverse,
        Generator.cmd_right, Generator.cmd_left;
      match goal with
      | |- context [Py.list_mul ?count (Generator.short ?g)] =>
          apply (frame_starts_high_ends_low g count Hn); lia
      end.
    + right. unfold Generator.cmd_stop.
      destruct (frame_starts_high_ends_low self 4 Hn) as [Hhd Hlast]; [lia|].
      split; [apply head_list_mul | apply last_list_mul]; (lia || assumption).
    + left. reflexivity.
Qed.

(** For instance the reverse-left frame at the configured rate. *)
Lemma waveform_levels_and_edges_witness :
  Forall two_level (Generator.cmd_reverse_left (Generator.__init__ 8e6)).
Proof.
  apply (waveform_levels_and_edges (Generator.__init__ 8e6) "sw"). reflexivity.
Defined.

(** X5.  When a bit period has at least one sample, the ten waveforms are
    pairwise different, so no two commands are keyed alike; when it has
    none, all ten are empty. *)
Theorem waveforms_pairwise_different (self : RCControllerSignalGenerator) :
  (Generator.samples_per_bit self <> 0%nat -> NoDup (waveforms self)) /\
  (Generator.samples_per_bit self = 0%nat -> Forall (fun w => w = []) (waveforms self)).
Proof.
  split.
  - intros Hn. apply (NoDup_fmap_1 Py.len). unfold waveforms. simpl.
    unfold Generator.cmd_forward_right, Generator.cmd_forward_left,
      Generator.cmd_forward, Generator.cmd_reverse_right, Generator.cmd_reverse_left,
      Generator.cmd_reverse, Generator.cmd_right, Generator.cmd_left.
    rewrite !len_frame, len_cmd_stop, len_cmd_off by lia.
    assert (Hpos : 0 < Z.of_nat (Generator.samples_per_bit self)) by lia.
    repeat (apply NoDup_cons; split;
            [rewrite ?elem_of_cons, elem_of_nil; lia|]).
    apply NoDup_nil. exact I.
  - intros Hn. unfold waveforms.
    assert (Hempty : forall w : list Q, Py.len w = 0 -> w = []).
    { intros [|x w] Hw; [reflexivity | discriminate]. }
    unfold Generator.cmd_forward_right, Generator.cmd_forward_left,
      Generator.cmd_forward, Generator.cmd_reverse_right, Generator.cmd_reverse_left,
      Generator.cmd_reverse, Generator.cmd_right, Generator.cmd_left.
    repeat (apply Forall_cons; split;
            [apply Hempty; rewrite ?len_frame, ?len_cmd_stop, ?len_cmd_off by lia; lia|]).
    apply Forall_nil. exact I.
Qed.

(** For instance at the configured rate. *)
Lemma waveforms_pairwise_different_witness :
  NoDup (waveforms (Generator.__init__ 8e6)).
Proof.
  apply (waveforms_pairwise_different (Generator.__init__ 8e6)).
  rewrite samples_per_bit_8e6. discriminate.
Defined.

(** * More of the modulator *)

Section Keying.
#[local] Open Scope R_scope.

Lemma Q2R_zero : Q2R 0 = 0.
Proof. unfold Q2R. simpl. field. Qed.

Lemma Q2R_high : Q2R 0.95 = 0.95.
Proof. unfold Q2R. simpl. field. Qed.

(** A zero sample stays zero whatever the phase of the carrier. *)
Lemma modulate_zero_sample (signal : list R) (k : nat) :
  signal !! k = Some 0 ->
  Controller._modulate_signal signal !! k = Some ((0, 0) : C).
Proof.
  intros Hk.
  rewrite (lookup_modulate_signal signal k 0 Hk), exp_imaginary, mul_real_phasor.
  do 2 f_equal; ring.
Qed.

Lemma modulate_zeros (m : nat) :
  Controller._modulate_signal (replicate m 0) = replicate m ((0, 0) : C).
Proof.
  apply list_eq. intros k.
  destruct (decide (k < m)%nat) as [Hlt|Hge].
  - rewrite modulate_zero_sample by (apply lookup_replicate_2; assumption).
    symmetry. apply lookup_replicate_2. assumption.
  - assert (Hnone : forall (A : Type) (y : A), replicate m y !! k = None).
    { intros A y. apply lookup_replicate_None. lia. }
    rewrite Hnone. apply lookup_ge_None.
    rewrite length_modulate_signal, length_replicate. lia.
Qed.

Lemma abs_zero : Complex.abs (0, 0) = 0.
Proof.
  unfold Complex.abs. simpl.
  replace (0 * 0 + 0 * 0) with 0 by ring. apply sqrt_0.
Qed.

(** A sample of a two-level waveform is zero after modulation exactly
    when it was low before. *)
Lemma keyed_sample (x : list Q) (k : nat) (q : Q) (y : C) :
  two_level q ->
  x !! k = Some q ->
  Controller._modulate_signal (Controller.np_array x) !! k = Some y ->
  y = (0, 0) <-> q = 0%Q.
Proof.
  intros Hq Hk Hy.
  assert (Hx : Controller.np_array x !! k = Some (Q2R q)).
  { unfold Controller.np_array. rewrite list_lookup_fmap, Hk. reflexivity. }
  rewrite (lookup_modulate_signal _ k _ Hx), exp_imaginary, mul_real_phasor in Hy.
  injection Hy as <-. destruct Hq as [-> | ->].
  - split; [reflexivity|]. intros _. rewrite Q2R_zero. f_equal; ring.
  - split; [|discriminate]. intros Hzero.
    apply (f_equal Complex.abs) in Hzero.
    rewrite abs_real_phasor, abs_zero in Hzero.
    pose proof Q2R_high as Hhigh. revert Hzero.
    unfold Rabs. destruct (Rcase_abs (Q2R 0.95)); lra.
Qed.

Lemma keyed_waveform (x : list Q) :
  Forall two_level x ->
  Forall2 (fun (q : Q) (y : C) => y = (0, 0) <-> q = 0%Q)
    x (Controller._modulate_signal (Controller.np_array x)).
Proof.
  intros Hx. apply Forall2_same_length_lookup. split.
  - rewrite length_modulate_signal. unfold Controller.np_array.
    rewrite length_fmap. reflexivity.
  - intros k q y Hk Hy. rewrite Forall_lookup in Hx.
    exact (keyed_sample x k q y (Hx k q Hk) Hk Hy).
Qed.

Lemma tiled_buffer_off (g : RCControllerSignalGenerator) :
  tiled_buffer (Generator.cmd_off g) =
  replicate (40 * Generator.samples_per_bit g) (0, 0).
Proof.
  unfold tiled_buffer. rewrite cmd_off_replicate, list_mul_replicate.
  unfold Controller.np_array.
  rewrite fmap_replicate, Q2R_zero, modulate_zeros. f_equal. lia.
Qed.

End Keying.

(** X8.  The keying survives the modulation.  In every buffer built from
    a waveform of the encoder, tiled four times as [_set_current_command]
    builds it or single as [__init__] builds the STOP buffer, there is a
    sample for each sample of the waveform, and it is zero exactly where
    the waveform is low: nothing is on air in the low periods, whatever
    the phase of the carrier, and something is in the high ones. *)
Theorem keying_survives_modulation
    (self : RCControllerSignalGenerator) (command : string) (w : list Q) :
  Generator.generate_signal self command = Some w ->
  let off_where_low (q : Q) (y : C) := y = (0%R, 0%R) <-> q = 0%Q in
  Forall2 off_where_low (Py.list_mul 4 w) (tiled_buffer w) /\
  Forall2 off_where_low w (Controller._modulate_signal (Controller.np_array w)).
Proof.
  intros Hw off_where_low. subst off_where_low.
  assert (Hlevels : Forall two_level w).
  { apply generate_signal_cases in Hw.
    pose proof (two_level_waveforms self) as Hall.
    rewrite Forall_forall in Hall. apply Hall. unfold waveforms.
    apply list_elem_of_In. simpl in *. tauto. }
  split; apply keyed_waveform; [apply Forall_list_mul|]; exact Hlevels.
Qed.

(** For instance the STOP frame at the configured rate. *)
Lemma keying_survives_modulation_witness :
  Forall2 (fun (q : Q) (y : C) => y = (0%R, 0%R) <-> q = 0%Q)
    (Generator.cmd_stop (Generator.__init__ 8e6))
    (Controller._modulate_signal
       (Controller.np_array (Generator.cmd_stop (Generator.__init__ 8e6)))).
Proof.
  apply (keying_survives_modulation (Generator.__init__ 8e6) "x"). reflexivity.
Defined.

(** X9.  Idling is silence: [_set_current_command] on [o] stores a buffer
    of forty bit periods of samples that are all zero. *)
Theorem idle_buffer_is_silence {Radio : Type} (self : RCController Radio) :
  exists self' : RCController Radio,
    Controller._set_current_command "o" self = (Py.Return tt, self') /\
    _current_command self' =
      Some (replicate (40 * Generator.samples_per_bit (generator self)) (0%R, 0%R)).
Proof.
  eexists. split.
  - apply set_current_command_run, generate_signal_o.
  - simpl. f_equal. apply tiled_buffer_off.
Qed.

(** * More of the write loop and the scheduler *)

Section WriterOrder.
Context {Radio : Type} `{SoapySDR Radio}.
Implicit Types (self : RCController Radio) (buffer : list C).

Lemma transmit_loop_in_order (fuel : nat) :
  forall (numSampsTotal : Z) buffer self,
  exists (calls : list write_call) (m : nat),
    written (Controller.transmit_loop fuel numSampsTotal buffer self).2 =
      written self ++ calls /\
    on_air calls = take m buffer /\
    Forall (fun c => exists k : nat, call_buffer c = drop k buffer) calls.
Proof.
  induction fuel as [|fuel IH]; intros numSampsTotal buffer self; simpl;
    destruct (numSampsTotal =? 0);
    try (exists [], 0%nat; simpl; rewrite app_nil_r, take_0;
         repeat split; constructor).
  unfold Py.bind.
  destruct (call_writeStream_spec buffer (Z.min (Py.len buffer) numSampsTotal) self)
    as (ret & self1 & -> & _ & Hw1 & _).
  set (c := {| call_buffer := buffer;
               call_size := Z.min (Py.len buffer) numSampsTotal;
               call_ret := ret |}) in *.
  assert (Hc : exists k : nat, call_buffer c = drop k buffer) by (exists 0%nat; reflexivity).
  destruct (0 <? ret).
  - destruct (IH (numSampsTotal - ret) (Py.slice_from ret buffer) self1)
      as (calls & m & Hw & Hair & Hall).
    exists (c :: calls), (Z.to_nat ret + m)%nat.
    split; [rewrite Hw, Hw1, <- app_assoc; reflexivity|]. split.
    + rewrite on_air_cons, Hair. unfold accepted, Py.slice_from. simpl.
      apply take_take_drop.
    + constructor; [exact Hc|].
      eapply Forall_impl; [exact Hall|]. intros c' [k Hk].
      exists (Z.to_nat ret + k)%nat. rewrite Hk. unfold Py.slice_from.
      apply drop_drop.
  - exists [c], (Z.to_nat ret). split; [exact Hw1|]. split.
    + rewrite on_air_cons. unfold on_air, accepted. simpl. apply app_nil_r.
    + constructor; [exact Hc | constructor].
Qed.

End WriterOrder.

(** X10.  Whatever the radio answers and however the loop ends,
    [_transmit_command] offers it nothing but the buffer with some samples
    dropped from the front, and the samples taken, call after call, are the
    buffer's first samples in their order: no sample goes on air twice or
    out of turn.  An empty buffer is not offered at all. *)
Theorem radio_sees_buffer_in_order {Radio : Type} `{SoapySDR Radio}
    (fuel : nat) (buffer : list C) (self : RCController Radio) :
  (exists (calls : list write_call) (m : nat),
      written (Controller._transmit_command fuel buffer self).2 = written self ++ calls /\
      on_air calls = take m buffer /\
      Forall (fun c => exists k : nat, call_buffer c = drop k buffer) calls) /\
  Controller._transmit_command fuel [] self = (Py.Return tt, self).
Proof.
  split.
  - apply transmit_loop_in_order.
  - destruct fuel; reflexivity.
Qed.

(** ** What no event changes *)

(** The directions the handlers are ever called with: [o], a button's
    label, a value of the key map. *)
Lemma key_map_values (key dir : string) :
  Controller._key_map !! key = Some dir ->
  exists d : direction, dir = key_direction d /\
    RCControllerButtonLight._key_bindings !! button_label d = Some key /\
    RCControllerButtonLight._key_bindings !! key_direction d = Some key.
Proof.
  intros Hkey. unfold Controller._key_map in Hkey.
  apply elem_of_list_to_map_2 in Hkey.
  repeat (apply elem_of_cons in Hkey as [Hkey|Hkey];
          [injection Hkey as -> ->|]).
  - exists North. repeat split.
  - exists South. repeat split.
  - exists East. repeat split.
  - exists West. repeat split.
  - exists NorthWest. repeat split.
  - exists NorthEast. repeat split.
  - exists SouthWest. repeat split.
  - exists SouthEast. repeat split.
  - apply elem_of_nil in Hkey. contradiction.
Qed.

Section Stable.
Context {Radio : Type} `{SoapySDR Radio}.
Implicit Types (self : RCController Radio).
Variable inv : RCController Radio -> Prop.
Hypothesis inv_view : forall v self, inv self -> inv (Controller.set_view v self).
Hypothesis inv_job : forall id self, inv self -> inv (Controller.set_job id self).
Hypothesis inv_radio : forall r c self, inv self -> inv (Controller.set_radio r c self).
Hypothesis inv_idle : ensures inv inv (Controller._set_current_command "o") inv.
Hypothesis inv_direction :
  forall d : direction,
    ensures inv inv (Controller._set_current_command (button_label d)) inv /\
    ensures inv inv (Controller._set_current_command (key_direction d)) inv.

Lemma stable_cancel_job : ensures inv inv Controller.cancel_job inv.
Proof.
  intros self o self' Hinv Hrun. unfold Controller.cancel_job, Py.bind, Py.get in Hrun.
  destruct (_job self); injection Hrun as <- <-; auto.
Qed.

Lemma stable_install_job (ms : Z) : ensures inv inv (Controller.install_job ms) inv.
Proof.
  intros self o self' Hinv Hrun. rewrite install_job_run in Hrun.
  injection Hrun as <- <-. auto.
Qed.

Lemma stable_transmit_loop (fuel : nat) :
  forall (numSampsTotal : Z) (buffer : list C),
    ensures inv inv (Controller.transmit_loop fuel numSampsTotal buffer) inv.
Proof.
  induction fuel as [|fuel IH]; intros numSampsTotal buffer self o self' Hinv Hrun;
    simpl in Hrun; destruct (numSampsTotal =? 0);
    try (injection Hrun as <- <-; exact Hinv).
  unfold Py.bind, Controller.call_writeStream in Hrun.
  destruct (writeStream (radio self) buffer (Z.min (Py.len buffer) numSampsTotal))
    as [ret r].
  destruct (0 <? ret).
  - eapply IH; [|exact Hrun]. apply inv_radio, Hinv.
  - injection Hrun as <- <-. apply inv_radio, Hinv.
Qed.

Lemma stable_press (direction : string) :
  ensures inv inv (Controller._set_current_command direction) inv ->
  ensures inv inv
    (Controller.cancel_job ;;;
     Controller._set_current_command direction ;;;
     Controller.install_job Controller._after_delay_ms)
    inv.
Proof.
  intros Hset.
  eapply ensures_bind; [apply stable_cancel_job | intros _].
  eapply ensures_bind; [exact Hset | intros _].
  apply stable_install_job.
Qed.

Lemma stable_transmit_stop_command (fuel : nat) :
  ensures inv inv (Controller._transmit_stop_command fuel) inv.
Proof.
  unfold Controller._transmit_stop_command.
  eapply ensures_bind; [apply stable_cancel_job | intros _].
  eapply ensures_bind with (Q := inv).
  - apply ensures_get. intros self0 Hinv.
    eapply ensures_weaken with (P := inv) (Q := inv);
      [intros s ->; exact Hinv | auto | apply stable_transmit_loop].
  - intros _. eapply ensures_bind; [exact inv_idle | intros _].
    apply stable_install_job.
Qed.

Lemma stable_fire (fuel : nat) (id : nat) :
  ensures inv inv (Controller.fire fuel id) inv.
Proof.
  unfold Controller.fire. apply ensures_get. intros self0 Hinv.
  eapply ensures_weaken with (P := inv) (Q := inv);
    [intros s ->; exact Hinv | auto |].
  destruct (Tk.pending (view self0) !! id) as [[ms []]|]; [|apply ensures_ret].
  eapply ensures_bind with (Q := inv); [apply ensures_modify; auto | intros _].
  unfold Controller._transmit_current_command.
  apply ensures_get. intros self1 Hinv1.
  eapply ensures_weaken with (P := inv) (Q := inv);
    [intros s ->; exact Hinv1 | auto |].
  destruct (_current_command self1) as [buffer|]; [|apply ensures_raise; auto].
  eapply ensures_bind; [apply stable_transmit_loop | intros _].
  apply stable_install_job.
Qed.

Lemma stable_dispatch (fuel : nat) (ev : event) :
  ensures inv inv (dispatch fuel ev) inv.
Proof.
  destruct ev as [char|char|d|d|id]; simpl.
  - unfold Controller._key_press_handler.
    destruct (Controller._key_map !! char) as [dir|] eqn:Hkey;
      [|apply ensures_ret].
    destruct (key_map_values char dir Hkey) as (d & -> & _).
    apply stable_press, inv_direction.
  - apply stable_transmit_stop_command.
  - apply stable_press, inv_direction.
  - apply stable_transmit_stop_command.
  - apply stable_fire.
Qed.

Lemma stable_mainloop (fuel : nat) (events : list event) :
  forall self, inv self -> inv (mainloop fuel events self).
Proof.
  induction events as [|ev events IH]; intros self Hinv; simpl; [exact Hinv|].
  destruct (dispatch fuel ev self) as [o self'] eqn:Hrun.
  pose proof (stable_dispatch fuel ev self o self' Hinv Hrun) as Hinv'.
  destruct o; [apply IH, Hinv' | apply IH, Hinv' | exact Hinv'].
Qed.

End Stable.

Lemma set_current_command_keeps_rest {Radio : Type} (direction : string)
    (self : RCController Radio) :
  let self' := (Controller._set_current_command direction self).2 in
  view self' = view self /\ generator self' = generator self /\
  _stop_command self' = _stop_command self /\ _job self' = _job self /\
  radio self' = radio self /\ written self' = written self.
Proof.
  unfold Controller._set_current_command, Py.bind, Py.get.
  destruct (Generator.generate_signal (generator self) direction); repeat split.
Qed.

(** X11.  The STOP buffer and the generator are set once, in [__init__]:
    whatever events come, whatever the radio answers and however the
    handlers end, both are afterwards what they were. *)
Theorem stop_buffer_is_never_rebuilt {Radio : Type} `{SoapySDR Radio}
    (fuel : nat) (events : list event) (self : RCController Radio) :
  _stop_command (mainloop fuel events self) = _stop_command self /\
  generator (mainloop fuel events self) = generator self.
Proof.
  apply (stable_mainloop
           (fun s => _stop_command s = _stop_command self /\
                     generator s = generator self)); try (intros; assumption);
    try (split; reflexivity).
  - intros s o s' [Hs Hg] Hrun.
    destruct (set_current_command_keeps_rest "o" s) as (_ & Hg' & Hs' & _).
    rewrite Hrun in Hg', Hs'. simpl in Hg', Hs'.
    destruct o; split; congruence.
  - intros d. split; intros s o s' [Hs Hg] Hrun.
    + destruct (set_current_command_keeps_rest (button_label d) s) as (_ & Hg' & Hs' & _).
      rewrite Hrun in Hg', Hs'. simpl in Hg', Hs'. destruct o; split; congruence.
    + destruct (set_current_command_keeps_rest (key_direction d) s) as (_ & Hg' & Hs' & _).
      rewrite Hrun in Hg', Hs'. simpl in Hg', Hs'. destruct o; split; congruence.
Qed.

(** ** The buffer the timer repeats *)

Lemma generate_signal_label (g : RCControllerSignalGenerator) (d : direction) :
  Generator.generate_signal g (button_label d) =
    Some (Py.list_mul 4 (Generator.long g) ++
          Py.list_mul (short_pulses d) (Generator.short g)) /\
  Generator.generate_signal g (key_direction d) =
    Some (Py.list_mul 4 (Generator.long g) ++
          Py.list_mul (short_pulses d) (Generator.short g)).
Proof. destruct d; split; reflexivity. Qed.

Lemma moving_or_idle_stable {Radio : Type} `{SoapySDR Radio}
    (fuel : nat) (events : list event) (self : RCController Radio) :
  moving_or_idle self -> moving_or_idle (mainloop fuel events self).
Proof.
  apply (stable_mainloop moving_or_idle); try (intros; assumption).
  - intros s o s' Hs Hrun.
    rewrite (set_current_command_run "o" (Generator.cmd_off (generator s)))
      in Hrun by apply generate_signal_o.
    injection Hrun as <- <-. left. reflexivity.
  - intros d. destruct (generate_signal_label (generator self) d) as [_ _].
    split; intros s o s' Hs Hrun.
    + rewrite (set_current_command_run (button_label d) _ s
                 (proj1 (generate_signal_label (generator s) d))) in Hrun.
      injection Hrun as <- <-. right. exists d. reflexivity.
    + rewrite (set_current_command_run (key_direction d) _ s
                 (proj2 (generate_signal_label (generator s) d))) in Hrun.
      injection Hrun as <- <-. right. exists d. reflexivity.
Qed.

Lemma mainloop_generator {Radio : Type} `{SoapySDR Radio}
    (fuel : nat) (events : list event) (self : RCController Radio) :
  generator (mainloop fuel events self) = generator self.
Proof.
  apply (stable_mainloop (fun s => generator s = generator self));
    try (intros; assumption); try reflexivity.
  - intros s o s' Hs Hrun.
    destruct (set_current_command_keeps_rest "o" s) as (_ & Hg' & _).
    rewrite Hrun in Hg'. simpl in Hg'. destruct o; congruence.
  - intros d. split; intros s o s' Hs Hrun.
    + destruct (set_current_command_keeps_rest (button_label d) s) as (_ & Hg' & _).
      rewrite Hrun in Hg'. simpl in Hg'. destruct o; congruence.
    + destruct (set_current_command_keeps_rest (key_direction d) s) as (_ & Hg' & _).
      rewrite Hrun in Hg'. simpl in Hg'. destruct o; congruence.
Qed.

(** X13.  From the start of the session on, whatever events arrive and
    however their handlers end, [_current_command] is set, and it is the
    modulated buffer of a direction's frame or of the off waveform, tiled
    four times: the timer never finds it unset, and it is never the STOP
    buffer, which goes out once for each release and is not repeated. *)
Theorem current_command_is_frame_or_off {Radio : Type} `{SoapySDR Radio}
    (fuel : nat) (events : list event) (r : Radio) :
  exists self0 : RCController Radio,
    main r = Py.Return self0 /\
    moving_or_idle (mainloop fuel events self0) /\
    _current_command (mainloop fuel events self0) <> Some (_stop_command self0).
Proof.
  eexists. split; [apply main_started|].
  match goal with |- context [mainloop _ _ ?s] => set (self0 := s) end.
  assert (Hm : moving_or_idle (mainloop fuel events self0)).
  { apply moving_or_idle_stable. left. reflexivity. }
  split; [exact Hm|].
  pose proof (mainloop_generator fuel events self0) as Hgen.
  revert Hm. generalize (mainloop fuel events self0) Hgen. intros self1 Hg1 Hm.
  intros Hstop.
  assert (Hlen : forall b : list C,
             _current_command self1 = Some b ->
             Py.len b <> Py.len (_stop_command self0)).
  { change (_stop_command self0)
        with (Controller._modulate_signal
                (Controller.np_array
                   (Generator.cmd_stop (Generator.__init__ Controller._sample_rate)))).
      unfold Py.len at 2. rewrite length_modulate_signal.
      unfold Controller.np_array at 1. rewrite length_fmap.
      change (Z.of_nat (length (Generator.cmd_stop ?g))) with (Py.len (Generator.cmd_stop g)).
      rewrite len_cmd_stop.
      change Controller._sample_rate with 8e6%Q. rewrite samples_per_bit_8e6.
      intros b Hb. destruct Hm as [Hoff|[d Hd]].
      - rewrite Hoff in Hb. injection Hb as <-.
        rewrite len_tiled_buffer, len_cmd_off, Hg1.
        change (generator self0) with (Generator.__init__ 8e6).
        rewrite samples_per_bit_8e6. lia.
      - rewrite Hd in Hb. injection Hb as <-.
        rewrite len_tiled_buffer, len_frame by (destruct d; simpl; lia).
        rewrite Hg1. change (generator self0) with (Generator.__init__ 8e6).
        rewrite samples_per_bit_8e6. destruct d; simpl; lia. }
  apply (Hlen _ Hstop). reflexivity.
Qed.

(** ** What a press does not do *)

Section Presses.
Context {Radio : Type} `{SoapySDR Radio}.
Implicit Types (self : RCController Radio).

Lemma press_is_silent (fuel : nat) (ev : event) self :
  is_press ev ->
  written (dispatch fuel ev self).2 = written self /\
  radio (dispatch fuel ev self).2 = radio self.
Proof.
  set (quiet := fun s : RCController Radio =>
                  written s = written self /\ radio s = radio self).
  assert (Hset : forall dir : string,
             ensures quiet quiet (Controller._set_current_command dir) quiet).
  { intros dir s o s' [Hw Hr] Hrun.
    destruct (set_current_command_keeps_rest dir s) as (_ & _ & _ & _ & Hr' & Hw').
    rewrite Hrun in Hr', Hw'. simpl in Hr', Hw'.
    destruct o; split; congruence. }
  assert (Hpress : forall dir : string,
             ensures quiet quiet
               (Controller.cancel_job ;;;
                Controller._set_current_command dir ;;;
                Controller.install_job Controller._after_delay_ms) quiet).
  { intros dir. apply stable_press; [auto | auto | apply Hset]. }
  intros Hev.
  destruct (dispatch fuel ev self) as [o self'] eqn:Hrun. simpl.
  assert (Hq : quiet self').
  { destruct ev as [char|char|d|d|id]; try contradiction; simpl in Hrun.
    - unfold Controller._key_press_handler in Hrun.
      destruct (Controller._key_map !! char) as [dir|].
      + pose proof (Hpress dir self o self' (conj eq_refl eq_refl) Hrun) as Hq.
        destruct o; exact Hq.
      + injection Hrun as <- <-. split; reflexivity.
    - pose proof (Hpress (button_label d) self o self' (conj eq_refl eq_refl) Hrun) as Hq.
      destruct o; exact Hq. }
  exact Hq.
Qed.

End Presses.

(** X14.  Pressing sends nothing by itself: over any run of key and
    button presses, mapped or not, no [writeStream] call is made and the
    radio is left as it was.  What goes on air goes from the timer's
    callback and from the release handlers. *)
Theorem presses_write_nothing {Radio : Type} `{SoapySDR Radio}
    (fuel : nat) (events : list event) (self : RCController Radio) :
  Forall is_press events ->
  written (mainloop fuel events self) = written self /\
  radio (mainloop fuel events self) = radio self.
Proof.
  intros Hall. revert self.
  induction Hall as [|ev events Hev _ IH]; intros self; simpl; [split; reflexivity|].
  destruct (press_is_silent fuel ev self Hev) as [Hw Hr].
  destruct (dispatch fuel ev self) as [o self']. simpl in Hw, Hr.
  destruct o; try (rewrite <- Hw, <- Hr; apply IH); split; assumption.
Qed.

Lemma presses_write_nothing_witness :
  exists self0 : RCController unit,
    main tt = Py.Return self0 /\
    written (@mainloop unit eager_radio 0
               [ButtonPress North; KeyPress "e"; KeyPress "p"; ButtonPress SouthWest]
               self0) = [].
Proof.
  eexists. split; [apply main_started|].
  match goal with |- written (mainloop _ ?evs ?s) = _ =>
    destruct (@presses_write_nothing unit eager_radio 0 evs s) as [Hw _]
  end.
  - repeat (apply Forall_cons; split; [exact I|]). apply Forall_nil. exact I.
  - rewrite Hw. reflexivity.
Defined.

(** ** When a handler raises *)

Section Raised.
Context {Radio : Type} `{SoapySDR Radio}.
Implicit Types (self : RCController Radio).

Lemma transmit_loop_same_attributes (fuel : nat) (numSampsTotal : Z)
    (buffer : list C) self :
  same_attributes self (Controller.transmit_loop fuel numSampsTotal buffer self).2.
Proof.
  destruct (Controller.transmit_loop fuel numSampsTotal buffer self) as [o self'] eqn:Hrun.
  pose proof (stable_transmit_loop (same_attributes self)) as Hst.
  specialize (Hst (fun r c s Hs => Hs) fuel numSampsTotal buffer self o self'
                  (same_attributes_refl self) Hrun).
  destruct o; exact Hst.
Qed.

Lemma transmit_loop_raises (fuel : nat) :
  forall (numSampsTotal : Z) (buffer : list C) self (e : Py.exn),
    (Controller.transmit_loop fuel numSampsTotal buffer self).1 = Py.Raise e ->
    e = Py.AssertionError.
Proof.
  induction fuel as [|fuel IH]; intros numSampsTotal buffer self e; simpl;
    destruct (numSampsTotal =? 0); try discriminate.
  unfold Py.bind, Controller.call_writeStream.
  destruct (writeStream (radio self) buffer (Z.min (Py.len buffer) numSampsTotal))
    as [ret r].
  destruct (0 <? ret); [apply IH|].
  simpl. congruence.
Qed.

Lemma cancelled_none_pending self (j : nat) :
  (forall i : nat, i <> j -> Tk.pending (view self) !! i = None) ->
  Tk.pending (Tk.after_cancel j (view self)) = ∅.
Proof.
  intros Hone. apply map_empty. intros i. simpl.
  destruct (decide (i = j)) as [->|Hi].
  - apply lookup_delete_eq.
  - rewrite lookup_delete_ne by congruence. apply Hone, Hi.
Qed.

Lemma timers_idle (fuel : nat) (ids : list nat) self :
  Tk.pending (view self) = ∅ ->
  mainloop fuel (TimerDue <$> ids) self = self.
Proof.
  intros Hp. induction ids as [|id ids IH]; simpl; [reflexivity|].
  unfold Controller.fire, Py.bind, Py.get. rewrite Hp, lookup_empty. exact IH.
Qed.

Lemma dispatch_raised (fuel : nat) (ev : event) self (e : Py.exn) self' :
  one_job_at_most self ->
  dispatch fuel ev self = (Py.Raise e, self') ->
  Tk.pending (view self') = ∅ /\
  _job self' = _job self /\
  _current_command self' = _current_command self /\
  (is_Some (_current_command self) -> e = Py.AssertionError).
Proof.
  intros (j & Hj & Hone) Hrun.
  pose proof (cancelled_none_pending self j Hone) as Hnone.
  assert (Hpress : forall d : direction, forall dir : string,
             Generator.generate_signal (generator self) dir =
               Some (Py.list_mul 4 (Generator.long (generator self)) ++
                     Py.list_mul (short_pulses d) (Generator.short (generator self))) ->
             (Controller.cancel_job ;;;
              Controller._set_current_command dir ;;;
              Controller.install_job Controller._after_delay_ms) self <>
             (Py.Raise e, self')).
  { intros d dir Hgen. unfold Py.bind at 1. rewrite (cancel_job_run self j Hj).
    unfold Py.bind at 1. erewrite set_current_command_run by exact Hgen.
    rewrite install_job_run. discriminate. }
  assert (Hstop : Controller._transmit_stop_command fuel self = (Py.Raise e, self') ->
                  Tk.pending (view self') = ∅ /\ _job self' = _job self /\
                  _current_command self' = _current_command self /\
                  e = Py.AssertionError).
  { clear Hrun. intros Hrun.
    unfold Controller._transmit_stop_command, Py.bind at 1 in Hrun.
    rewrite (cancel_job_run self j Hj) in Hrun.
    set (self1 := Controller.set_view (Tk.after_cancel j (view self)) self) in *.
    unfold Py.bind at 1 in Hrun. unfold Py.bind at 1, Py.get in Hrun.
    unfold Controller._transmit_command in Hrun.
    pose proof (transmit_loop_same_attributes fuel (Py.len (_stop_command self1))
                  (_stop_command self1) self1) as Hsame.
    pose proof (transmit_loop_raises fuel (Py.len (_stop_command self1))
                  (_stop_command self1) self1) as Hexn.
    destruct (Controller.transmit_loop fuel (Py.len (_stop_command self1))
                (_stop_command self1) self1) as [[[]|e'|] self2]; simpl in Hsame.
    - unfold Py.bind at 1 in Hrun.
      rewrite (set_current_command_run "o" (Generator.cmd_off (generator self2)))
        in Hrun by apply generate_signal_o.
      rewrite install_job_run in Hrun. discriminate.
    - injection Hrun as <- <-. destruct Hsame as (Hv & _ & _ & Hc & Hjob).
      rewrite Hv, Hc, Hjob. split; [exact Hnone|]. split; [reflexivity|].
      split; [reflexivity|]. apply (Hexn e' eq_refl).
    - discriminate. }
  destruct ev as [char|char|d|d|id]; simpl in Hrun.
  - unfold Controller._key_press_handler in Hrun.
    destruct (Controller._key_map !! char) as [dir|] eqn:Hkey; [|discriminate].
    destruct (key_map_values char dir Hkey) as (d & -> & _).
    destruct (Hpress d (key_direction d) (proj2 (generate_signal_label _ d)) Hrun).
  - destruct (Hstop Hrun) as (? & ? & ? & ?). auto.
  - destruct (Hpress d (button_label d) (proj1 (generate_signal_label _ d)) Hrun).
  - destruct (Hstop Hrun) as (? & ? & ? & ?). auto.
  - unfold Controller.fire, Py.bind at 1 in Hrun. unfold Py.get at 1 in Hrun.
    destruct (Tk.pending (view self) !! id) as [[ms []]|] eqn:Hid; [|discriminate].
    assert (id = j) as ->.
    { destruct (decide (id = j)) as [|Hne]; [assumption|].
      rewrite (Hone id Hne) in Hid. discriminate. }
    unfold Py.bind at 1, Py.modify at 1 in Hrun.
    set (self1 := Controller.set_view (Tk.after_cancel j (view self)) self) in *.
    unfold Controller._transmit_current_command, Py.bind at 1 in Hrun.
    unfold Py.get at 1 in Hrun.
    change (_current_command self1) with (_current_command self) in Hrun.
    destruct (_current_command self) as [buffer|] eqn:Hcur.
    + unfold Py.bind at 1, Controller._transmit_command in Hrun.
      pose proof (transmit_loop_same_attributes fuel (Py.len buffer) buffer self1) as Hsame.
      pose proof (transmit_loop_raises fuel (Py.len buffer) buffer self1) as Hexn.
      destruct (Controller.transmit_loop fuel (Py.len buffer) buffer self1)
        as [[[]|e'|] self2]; simpl in Hsame.
      * rewrite install_job_run in Hrun. discriminate.
      * injection Hrun as <- <-. destruct Hsame as (Hv & _ & _ & Hc & Hjob).
        rewrite Hv, Hc, Hjob. split; [exact Hnone|]. split; [reflexivity|].
        split; [exact Hcur|]. intros _. apply (Hexn e' eq_refl).
      * discriminate.
    + injection Hrun as <- <-. split; [exact Hnone|]. split; [reflexivity|].
      split; [exact Hcur|]. intros [? Hx]. discriminate.
Qed.

End Raised.

(** X15.  A handler or callback that raises breaks the chain of
    retransmissions.  From a state with no job pending but the one [_job]
    names, if the handler of an event raises, then no job is left pending
    and [_current_command] is what it was (a release that fails has not
    switched to the off waveform); the exception is the [AssertionError]
    of a refused write whenever [_current_command] was set; timer events
    that arrive afterwards do nothing, so nothing more goes on air; and
    the next press installs one job again. *)
Theorem raise_breaks_retransmission {Radio : Type} `{SoapySDR Radio}
    (fuel : nat) (ev : event) (self self' : RCController Radio) (e : Py.exn) :
  one_job_at_most self ->
  dispatch fuel ev self = (Py.Raise e, self') ->
  Tk.pending (view self') = ∅ /\
  _current_command self' = _current_command self /\
  (is_Some (_current_command self) -> e = Py.AssertionError) /\
  (forall ids : list nat, mainloop fuel (TimerDue <$> ids) self' = self') /\
  (forall d : direction,
      exists self'',
        dispatch fuel (ButtonPress d) self' = (Py.Return tt, self'') /\
        Tk.pending (view self'') =
          {[ Tk.next_id (view self') := (15, Tk._transmit_current_command_cb) ]}).
Proof.
  intros Hone Hrun.
  destruct (dispatch_raised fuel ev self e self' Hone Hrun) as (Hp & Hj & Hc & He).
  split; [exact Hp|]. split; [exact Hc|]. split; [exact He|]. split.
  - intros ids. apply timers_idle, Hp.
  - intros d. destruct Hone as (j & Hjob & _). rewrite <- Hj in Hjob.
    destruct (button_press_run (button_label d) _ self' j Hjob
                (proj1 (generate_signal_label (generator self') d)))
      as (self'' & Hpress & Hp'' & _).
    exists self''. split; [exact Hpress|].
    rewrite Hp'', Hp, delete_empty. apply insert_empty.
Qed.

Lemma raise_breaks_retransmission_witness :
  exists self' : RCController bool,
    @dispatch bool deaf_radio 2 (TimerDue 0) refusing_session =
      (Py.Raise Py.AssertionError, self') /\
    Tk.pending (view self') = ∅ /\
    @mainloop bool deaf_radio 2 [TimerDue 0; TimerDue 1] self' = self'.
Proof.
  assert (Hrun : @dispatch bool deaf_radio 2 (TimerDue 0) refusing_session =
                 (Py.Raise Py.AssertionError,
                  Controller.set_radio true
                    {| call_buffer := [(1, 0)%R; (0, 1)%R]; call_size := 2;
                       call_ret := -1 |}
                    (Controller.set_view
                       (Tk.after_cancel 0 (view refusing_session)) refusing_session))).
  { reflexivity. }
  match type of Hrun with _ = (_, ?s) => exists s end.
  split; [exact Hrun|].
  assert (Hone : one_job_at_most refusing_session).
  { exists 0%nat. split; [reflexivity|].
    intros i Hi. simpl. apply lookup_singleton_ne. congruence. }
  destruct (@raise_breaks_retransmission bool deaf_radio 2 (TimerDue 0) refusing_session _
              Py.AssertionError Hone Hrun) as (Hp & _ & _ & Hidle & _).
  split; [exact Hp|]. exact (Hidle [0%nat; 1%nat]).
Defined.

(** ** The timer's chain *)

Section Chain.
Context {Radio : Type} `{SoapySDR Radio}.
Implicit Types (self : RCController Radio) (buffer : list C).

Lemma on_air_app (calls calls' : list write_call) :
  on_air (calls ++ calls') = on_air calls ++ on_air calls'.
Proof. unfold on_air. rewrite fmap_app, concat_app. reflexivity. Qed.

(** X16.  Left alone, the timer repeats the current command for as long
    as the radio accepts it.  Over a radio that takes some of what it is
    offered and no more, from a state whose job of record is pending, each
    time the job comes due the whole buffer goes on air once and a new job
    takes its place: after [k] turns the radio has taken [k] copies of the
    buffer end to end, the buffer is still the current command, and the
    next job is pending. *)
Theorem timer_repeats_current_command (fuel : nat) buffer (k : nat) :
  respects_size Radio -> always_accepts Radio ->
  (length buffer <= fuel)%nat ->
  forall self (id : nat) (ms : Z),
    _job self = Some id ->
    Tk.pending (view self) !! id = Some (ms, Tk._transmit_current_command_cb) ->
    _current_command self = Some buffer ->
    exists self' calls,
      ticks fuel k self = (Py.Return tt, self') /\
      written self' = written self ++ calls /\
      on_air calls = concat (replicate k buffer) /\
      _current_command self' = Some buffer /\
      exists (id' : nat) (ms' : Z),
        _job self' = Some id' /\
        Tk.pending (view self') !! id' = Some (ms', Tk._transmit_current_command_cb).
Proof.
  intros Hsize Hacc Hfuel.
  induction k as [|k IH]; intros self id ms Hjob Hid Hcur.
  - exists self, []. simpl. rewrite app_nil_r. repeat split; try assumption.
    exists id, ms. split; assumption.
  - destruct (fire_run fuel self id ms buffer Hid Hcur Hsize Hacc Hfuel)
      as (self1 & calls1 & Hrun1 & Hw1 & Hair1 & Hp1 & Hjob1 & Hcur1).
    destruct (IH self1 (Tk.next_id (view self)) 2 Hjob1) as
      (self2 & calls2 & Hrun2 & Hw2 & Hair2 & Hcur2 & Hnext); [|exact Hcur1|].
    { rewrite Hp1. apply lookup_insert_eq. }
    exists self2, (calls1 ++ calls2). split.
    + simpl. unfold Py.bind at 1, tick at 1. unfold Py.bind at 1, Py.get at 1.
      rewrite Hjob, Hrun1. exact Hrun2.
    + rewrite Hw2, Hw1, on_air_app, Hair1, Hair2, app_assoc. simpl.
      repeat split; assumption.
Qed.

End Chain.

Lemma timer_repeats_current_command_witness :
  exists (self0 self' : RCController unit) (buffer : list C),
    main tt = Py.Return self0 /\
    _current_command self0 = Some buffer /\
    @ticks unit eager_radio (length buffer) 3 self0 = (Py.Return tt, self') /\
    on_air (written self') = buffer ++ buffer ++ buffer.
Proof.
  pose proof (main_started tt) as Hmain. cbv zeta in Hmain.
  match type of Hmain with _ = Py.Return ?s => set (self0 := s) in * end.
  set (buffer := tiled_buffer (Generator.cmd_off (generator self0))).
  destruct (@timer_repeats_current_command unit eager_radio
              (length buffer) buffer 3 eager_radio_respects_size
              eager_radio_always_accepts (le_n _) self0 0%nat 15)
    as (self' & calls & Hrun & Hw & Hair & _).
  - reflexivity.
  - apply lookup_singleton_eq.
  - reflexivity.
  - exists self0, self', buffer. split; [exact Hmain|]. split; [reflexivity|].
    split; [exact Hrun|].
    rewrite Hw. change (written self0 ++ calls) with calls. rewrite Hair.
    clearbody buffer. simpl. rewrite app_nil_r. reflexivity.
Defined.

(** ** Keys and buttons *)

Section Keys.
Context {Radio : Type} `{SoapySDR Radio}.
Implicit Types (self : RCController Radio).

Lemma set_current_command_either_spelling (d : direction) self :
  Controller._set_current_command (key_direction d) self =
  Controller._set_current_command (button_label d) self.
Proof.
  destruct (generate_signal_label (generator self) d) as [Hlabel Hkey].
  rewrite (set_current_command_run _ _ self Hlabel).
  rewrite (set_current_command_run _ _ self Hkey). reflexivity.
Qed.

Lemma bound_key_is_mapped (d : direction) (key : string) :
  RCControllerButtonLight._key_bindings !! button_label d = Some key ->
  Controller._key_map !! key = Some (key_direction d).
Proof. destruct d; intros Hb; vm_compute in Hb; injection Hb as <-; reflexivity. Qed.

(** X17.  The keyboard drives what the buttons drive, and nothing else.
    Each button has a key in the table that [RCControllerButtonLight]
    declares, [_key_bindings], the same under its label in either case.  Pressing a key that the table gives to a button does
    exactly what pressing that button does: same outcome, same state.
    Pressing any other key does nothing. *)
Theorem keys_mirror_buttons (key : string) self :
  (forall d : direction,
      exists k : string,
        RCControllerButtonLight._key_bindings !! button_label d = Some k /\
        RCControllerButtonLight._key_bindings !! key_direction d = Some k) /\
  ((exists d : direction,
       RCControllerButtonLight._key_bindings !! button_label d = Some key /\
       Controller._key_press_handler key self =
       Controller._button_press_handler (button_label d) self) \/
   ((forall d : direction,
        RCControllerButtonLight._key_bindings !! button_label d <> Some key) /\
    Controller._key_press_handler key self = (Py.Return tt, self))).
Proof.
  split.
  - intros d. destruct d; eexists; split; reflexivity.
  - destruct (Controller._key_map !! key) as [dir|] eqn:Hkey.
    + left. destruct (key_map_values key dir Hkey) as (d & -> & Hb & _).
      exists d. split; [exact Hb|].
      unfold Controller._key_press_handler, Controller._button_press_handler.
      rewrite Hkey. unfold Py.bind at 1 3.
      destruct (Controller.cancel_job self) as [[[]|e|] self1]; try reflexivity.
      unfold Py.bind. rewrite set_current_command_either_spelling. reflexivity.
    + right. split; [|apply key_press_unmapped, Hkey].
      intros d Hb. apply bound_key_is_mapped in Hb. congruence.
Qed.

End Keys.
